(** * Reading enrichment pipeline of the GPS asset tracker (src/server.js)

    A shallow embedding of the POST /api/readings and GET /api/latest
    handlers.  JavaScript numbers are IEEE binary64 values, modelled by the
    primitive floats of Rocq; request bodies are the values [JSON.parse]
    produces; the two module-level variables [previousReading] and
    [latestReading] are an explicit state record threaded through a small
    state-and-exception monad that mirrors the [try]/[catch] of the handler. *)

From Stdlib Require Import Floats ZArith String List Bool Lia.
Import ListNotations.

Local Open Scope string_scope.
Local Open Scope list_scope.

(* Decimal literals of the source ([1e-9], [9.80665]) denote the nearest
   binary64 value, in JavaScript as here. *)
Set Warnings "-inexact-float,-register-all".

(** ** JavaScript values *)

(** The values a parsed request body is made of, plus [undefined]
    (an absent body, an absent property). *)
Inductive value : Type :=
| VUndefined
| VNull
| VBool (b : bool)
| VNum (n : float)
| VStr (s : string)
| VArr (elems : list value)
| VObj (props : list (string * value)).

(** The property names the handler reads.  None of them is an array index,
    [length] or a member of a built-in prototype, so a read of one of them
    only ever finds an own data property of a parsed object. *)
Inductive PropName : Type :=
| P_temperature | P_humidity | P_accel | P_gyro | P_lat | P_lon
| P_x | P_y | P_z.

Definition prop_key (k : PropName) : string :=
  match k with
  | P_temperature => "temperature"
  | P_humidity => "humidity"
  | P_accel => "accel"
  | P_gyro => "gyro"
  | P_lat => "lat"
  | P_lon => "lon"
  | P_x => "x"
  | P_y => "y"
  | P_z => "z"
  end.

(** Own-property lookup in a parsed object (keys are distinct after
    [JSON.parse]); a missing key reads as [undefined]. *)
Fixpoint lookup (k : string) (props : list (string * value)) : value :=
  match props with
  | [] => VUndefined
  | (k', v) :: rest => if String.eqb k k' then v else lookup k rest
  end.

(** Whether a parsed object has an own property of that name. *)
Fixpoint has_own (k : string) (props : list (string * value)) : bool :=
  match props with
  | [] => false
  | (k', _) :: rest => String.eqb k k' || has_own k rest
  end.

(** ToBoolean. *)
Definition truthy (v : value) : bool :=
  match v with
  | VUndefined | VNull => false
  | VBool b => b
  | VNum n => negb (is_zero n || is_nan n)
  | VStr s => negb (String.eqb s "")
  | VArr _ | VObj _ => true
  end.

(** [a || b] on values. *)
Definition js_or (a b : value) : value := if truthy a then a else b.

(** The [typeof] operator. *)
Definition typeof (v : value) : string :=
  match v with
  | VUndefined => "undefined"
  | VNull => "object"
  | VBool _ => "boolean"
  | VNum _ => "number"
  | VStr _ => "string"
  | VArr _ | VObj _ => "object"
  end.

(** The value read by [v.k] when [v] is neither [undefined] nor [null]:
    an own property of an object, [undefined] on arrays and primitives. *)
Definition prop (v : value) (k : PropName) : value :=
  match v with
  | VObj props => lookup (prop_key k) props
  | _ => VUndefined
  end.

(** ** The host's built-ins *)

(** The built-ins ECMAScript leaves to the engine ([Math.sin], [Math.cos]
    and [Math.atan2] are implementation-approximated) or whose grammar is
    outside this development (string/number conversion). *)
Class JSHost : Type := {
  Math_sin : float -> float;
  Math_cos : float -> float;
  Math_atan2 : float -> float -> float;
  StringToNumber : string -> float;
  NumberToString : float -> string
}.

Definition Math_PI : float := 0x1.921fb54442d18p+1%float.
Definition Math_sqrt : float -> float := PrimFloat.sqrt.
Definition Math_abs : float -> float := PrimFloat.abs.
Definition Number_isFinite : float -> bool := PrimFloat.is_finite.

(** [Math.max] of two numbers: NaN is contagious and [+0] is larger
    than [-0]. *)
Definition Math_max (a b : float) : float :=
  if is_nan a || is_nan b then nan
  else if (a <? b)%float then b
  else if (b <? a)%float then a
  else if get_sign a then b else a.

(** [a || b] when [a] is a number: [0], [-0] and [NaN] are falsy. *)
Definition num_or (a b : float) : float :=
  if truthy (VNum a) then a else b.

(** ** Conversions *)

(** The exception the handler can meet. *)
Inductive Exn : Type := TypeError.

(** The result of an operation that returns or throws. *)
Inductive Completion (A : Type) : Type :=
| Done (a : A)
| Failed (e : Exn).
Arguments Done {A} a.
Arguments Failed {A} e.

Section Conversions.
Context {host : JSHost}.

(** ToString on parsed values.  An array is joined with commas, its
    [undefined] and [null] elements printing as the empty string.  An
    object goes through its [toString] and then its [valueOf]: the
    inherited [toString] answers ["[object Object]"], but an own property
    named [toString] shadows it, is never callable in a parsed value, and
    the inherited [valueOf] returns the object itself, so the conversion
    throws a TypeError.  (Exhaustion of the call stack on very deep
    nesting is outside the model.) *)
Fixpoint ToString (v : value) : Completion string :=
  match v with
  | VUndefined => Done "undefined"
  | VNull => Done "null"
  | VBool b => Done (if b then "true" else "false")
  | VNum n => Done (NumberToString n)
  | VStr s => Done s
  | VArr elems =>
      (fix join (l : list value) : Completion string :=
         match l with
         | [] => Done ""
         | x :: rest =>
             let cx := match x with
                       | VUndefined | VNull => Done ""
                       | _ => ToString x
                       end in
             match cx with
             | Failed e => Failed e
             | Done sx =>
                 match rest with
                 | [] => Done sx
                 | _ :: _ =>
                     match join rest with
                     | Failed e => Failed e
                     | Done sr => Done (sx ++ "," ++ sr)%string
                     end
                 end
             end
         end) elems
  | VObj props =>
      if has_own "toString" props then Failed TypeError
      else Done "[object Object]"
  end.

(** [Number(v)]: ToNumber.  Objects and arrays go through their
    primitive form: [valueOf] returns the object itself (an own [valueOf]
    is not callable and is skipped), so the string form decides, and the
    conversion throws exactly when ToString does. *)
Definition Number (v : value) : Completion float :=
  match v with
  | VUndefined => Done nan
  | VNull => Done 0%float
  | VBool b => Done (if b then 1%float else 0%float)
  | VNum n => Done n
  | VStr s => Done (StringToNumber s)
  | VArr _ | VObj _ =>
      match ToString v with
      | Done str => Done (StringToNumber str)
      | Failed e => Failed e
      end
  end.

(** Whether [Number(v)] returns, and the number it returns then. *)
Definition convertible (v : value) : bool :=
  match Number v with
  | Done _ => true
  | Failed _ => false
  end.

Definition number_of (v : value) : float :=
  match Number v with
  | Done n => n
  | Failed _ => nan
  end.

End Conversions.

(** ** Kinematics *)

Definition toRadians (deg : float) : float := ((deg * Math_PI) / 180)%float.

Definition toDegrees (rad : float) : float := ((rad * 180) / Math_PI)%float.

(** Haversine distance in meters. *)
Definition haversineDistanceMeters {host : JSHost}
    (lat1 lon1 lat2 lon2 : float) : float :=
  let R := 6371000%float in
  let dLat := toRadians (lat2 - lat1) in
  let dLon := toRadians (lon2 - lon1) in
  let a :=
    (Math_sin (dLat / 2) * Math_sin (dLat / 2) +
     Math_cos (toRadians lat1) *
       Math_cos (toRadians lat2) *
       Math_sin (dLon / 2) *
       Math_sin (dLon / 2))%float in
  let c := (2 * Math_atan2 (Math_sqrt a) (Math_sqrt (1 - a)))%float in
  (R * c)%float.

(** ** Data model *)

(** The [reading] object literal: scalars are a number or [null]; [accel]
    and [gyro] hold whatever truthy value the body carried, or [null]. *)
Record Reading : Type := {
  temperature : option float;
  humidity : option float;
  accel : value;
  gyro : value;
  lat : option float;
  lon : option float;
  timestamp : float
}.

(** The two values of [intensityUnit] other than [null]: the strings
    ['m_s'] and ['m_s2']. *)
Inductive IntensityUnit : Type := m_s | m_s2.

(** [{ ...reading, intensity, intensityUnit, pitch, roll, alerts }]: the
    seven copied properties of [reading] are kept together as [raw]. *)
Record Enriched : Type := {
  raw : Reading;
  intensity : option float;
  intensityUnit : option IntensityUnit;
  pitch : option float;
  roll : option float;
  alerts : list string
}.

(** The module-level variables of server.js. *)
Record State : Type := {
  previousReading : option Reading;
  latestReading : option Enriched
}.

Definition initial_state : State :=
  {| previousReading := None; latestReading := None |}.

(** What a handler sends: the status and the JSON document. *)
Inductive Payload : Type :=
| OkTrue                            (* { ok: true } *)
| OkData (data : option Enriched)   (* { ok: true, data: ... } *)
| OkFalse (error : string).         (* { ok: false, error: ... } *)

Record Response : Type := {
  status : Z;
  json : Payload
}.

(** ** Execution monad: state plus exceptions *)

Inductive Outcome (A : Type) : Type :=
| Normal (a : A) (s : State)
| Throw (e : Exn) (s : State).
Arguments Normal {A} a s.
Arguments Throw {A} e s.

Definition Exec (A : Type) : Type := State -> Outcome A.

Definition ret {A} (a : A) : Exec A := fun s => Normal a s.

Definition bind {A B} (m : Exec A) (f : A -> Exec B) : Exec B :=
  fun s =>
    match m s with
    | Normal a s' => f a s'
    | Throw e s' => Throw e s'
    end.

Notation "x <- m ;; k" := (bind m (fun x => k))
  (at level 61, m at next level, right associativity).
Notation "m ;;; k" := (bind m (fun _ => k))
  (at level 61, right associativity).

(** An operation that does not touch the state. *)
Definition lift {A} (c : Completion A) : Exec A :=
  fun s =>
    match c with
    | Done a => Normal a s
    | Failed e => Throw e s
    end.

(** Property read [v.k]: a TypeError on [undefined] and [null]. *)
Definition Get (v : value) (k : PropName) : Exec value :=
  fun s =>
    match v with
    | VUndefined | VNull => Throw TypeError s
    | _ => Normal (prop v k) s
    end.

Definition read_previousReading : Exec (option Reading) :=
  fun s => Normal (previousReading s) s.

Definition write_latestReading (e : Enriched) : Exec unit :=
  fun s => Normal tt {| previousReading := previousReading s;
                        latestReading := Some e |}.

Definition write_previousReading (r : Reading) : Exec unit :=
  fun s => Normal tt {| previousReading := Some r;
                        latestReading := latestReading s |}.

(** ** The handlers *)

(** The alert messages, as the source spells them. *)
Definition ALERT_TEMP_DANGEROUS : string := "🔥 DANGEROUS: Temperature extremely high".
Definition ALERT_TEMP_HIGH : string := "⚠️ High temperature detected".
Definition ALERT_TEMP_FREEZING : string := "❄️ Temperature below freezing".
Definition ALERT_HUMIDITY_HIGH : string := "💧 Humidity critically high".
Definition ALERT_HUMIDITY_LOW : string := "🌵 Humidity very low".
Definition ALERT_SPEED : string := "🚗 Sudden high movement speed detected".
Definition ALERT_TILT : string := "📦 Device might be tilted or falling".
Definition ALERT_SHOCK : string := "💥 Sudden impact/shock detected!".

(** The temperature rule: at most one alert, first match wins. *)
Definition temperature_alerts (t : option float) : list string :=
  match t with
  | None => []
  | Some t =>
      if (50 <? t)%float then [ALERT_TEMP_DANGEROUS]
      else if (40 <? t)%float then [ALERT_TEMP_HIGH]
      else if (t <? 0)%float then [ALERT_TEMP_FREEZING]
      else []
  end.

(** The humidity rule. *)
Definition humidity_alerts (h : option float) : list string :=
  match h with
  | None => []
  | Some h =>
      if (90 <? h)%float then [ALERT_HUMIDITY_HIGH]
      else if (h <? 20)%float then [ALERT_HUMIDITY_LOW]
      else []
  end.

(** [intensityUnit === 'm_s' && typeof intensity === 'number' &&
    intensity > 20]. *)
Definition movement_alerts (intensity : option float)
    (intensityUnit : option IntensityUnit) : list string :=
  match intensityUnit, intensity with
  | Some m_s, Some i => if (20 <? i)%float then [ALERT_SPEED] else []
  | _, _ => []
  end.

(** The value kept for a scalar once [typeof v === 'number'] held. *)
Definition as_number (v : value) : option float :=
  match v with
  | VNum n => Some n
  | _ => None
  end.

(** The local variables [intensity], [intensityUnit], [pitch], [roll]. *)
Definition Locals : Type :=
  (option float * option IntensityUnit * option float * option float)%type.

Section Handlers.
Context {host : JSHost}.

(** [typeof body.k === 'number' ? body.k : null]. *)
Definition number_field (body : value) (k : PropName) : Exec (option float) :=
  t <- Get body k ;;
  if String.eqb (typeof t) "number"
  then v <- Get body k ;; ret (as_number v)
  else ret None.

(** Lines 51-59: the [reading] object. *)
Definition make_reading (now : float) (body : value) : Exec Reading :=
  temperature_ <- number_field body P_temperature ;;
  humidity_ <- number_field body P_humidity ;;
  accel_ <- Get body P_accel ;;
  gyro_ <- Get body P_gyro ;;
  lat_ <- number_field body P_lat ;;
  lon_ <- number_field body P_lon ;;
  ret {| temperature := temperature_;
         humidity := humidity_;
         accel := js_or accel_ VNull;
         gyro := js_or gyro_ VNull;
         lat := lat_;
         lon := lon_;
         timestamp := now |}.

(** Lines 69-85: speed from two GPS fixes. *)
Definition gps_block (reading : Reading) (previous : option Reading)
    : option float * option IntensityUnit :=
  match lat reading, lon reading, previous with
  | Some rlat, Some rlon, Some p =>
      match lat p, lon p with
      | Some plat, Some plon =>
          let dtMs := Math_max 1 (timestamp reading - timestamp p) in
          let dMeters := haversineDistanceMeters plat plon rlat rlon in
          (Some (dMeters / (dtMs / 1000))%float, Some m_s)
      | _, _ => (None, None)
      end
  | _, _, _ => (None, None)
  end.

(** Lines 88-108, once the accelerometer counts are numbers. *)
Definition orientation (ax ay az : float)
    (intensity : option float) (intensityUnit : option IntensityUnit)
    : Locals :=
  let scale := 16384%float in
  let gX := (ax / scale)%float in
  let gY := (ay / scale)%float in
  let gZ := (az / scale)%float in
  let '(intensity, intensityUnit) :=
    match intensity with
    | None =>
        let magG := Math_sqrt (gX * gX + gY * gY + gZ * gZ) in
        let linG := Math_max 0 (magG - 1) in
        let MS2_PER_G := 9.80665%float in
        (Some (linG * MS2_PER_G)%float, Some m_s2)
    | Some _ => (intensity, intensityUnit)
    end in
  let denomPitch := Math_sqrt (gY * gY + gZ * gZ) in
  let pitchRad := Math_atan2 gX (num_or denomPitch 1e-9) in
  let rollRad := Math_atan2 (- gY) (num_or gZ 1e-9) in
  (intensity, intensityUnit,
   if Number_isFinite pitchRad then Some (toDegrees pitchRad) else None,
   if Number_isFinite rollRad then Some (toDegrees rollRad) else None).

(** Lines 87-109. *)
Definition accel_block (reading : Reading)
    (intensity : option float) (intensityUnit : option IntensityUnit)
    : Exec Locals :=
  if truthy (accel reading) then
    x <- Get (accel reading) P_x ;;
    if String.eqb (typeof x) "number" then
      vx <- Get (accel reading) P_x ;;
      ax <- lift (Number vx) ;;
      vy <- Get (accel reading) P_y ;;
      ay <- lift (Number vy) ;;
      vz <- Get (accel reading) P_z ;;
      az <- lift (Number vz) ;;
      ret (orientation ax ay az intensity intensityUnit)
    else ret (intensity, intensityUnit, None, None)
  else ret (intensity, intensityUnit, None, None).

(** Lines 137-150, on the three counts once converted. *)
Definition impact_alerts (nx ny nz : float) : list string :=
  let axAbs := Math_abs nx in
  let ayAbs := Math_abs ny in
  let azAbs := Math_abs nz in
  let tilted := if (azAbs <? 12000)%float then [ALERT_TILT] else [] in
  let total :=
    Math_sqrt (axAbs * axAbs + ayAbs * ayAbs + azAbs * azAbs) in
  tilted ++ (if (15000 <? total)%float then [ALERT_SHOCK] else []).

(** Lines 136-151. *)
Definition impact_block (reading : Reading) : Exec (list string) :=
  if truthy (accel reading) then
    vx <- Get (accel reading) P_x ;;
    nx <- lift (Number (js_or vx (VNum 0))) ;;
    vy <- Get (accel reading) P_y ;;
    ny <- lift (Number (js_or vy (VNum 0))) ;;
    vz <- Get (accel reading) P_z ;;
    nz <- lift (Number (js_or vz (VNum 0))) ;;
    ret (impact_alerts nx ny nz)
  else ret [].

(** The body of the [try] block of POST /api/readings; [now] is the value
    of [Date.now()]. *)
Definition post_readings_try (now : float) (req_body : value)
    : Exec Response :=
  let body := js_or req_body (VObj []) in
  reading <- make_reading now body ;;
  previous <- read_previousReading ;;
  let '(intensity0, intensityUnit0) := gps_block reading previous in
  locals <- accel_block reading intensity0 intensityUnit0 ;;
  let '(intensity_, intensityUnit_, pitch_, roll_) := locals in
  let alerts0 :=
    temperature_alerts (temperature reading)
    ++ humidity_alerts (humidity reading)
    ++ movement_alerts intensity_ intensityUnit_ in
  impact <- impact_block reading ;;
  write_latestReading {| raw := reading;
                         intensity := intensity_;
                         intensityUnit := intensityUnit_;
                         pitch := pitch_;
                         roll := roll_;
                         alerts := alerts0 ++ impact |} ;;;
  write_previousReading reading ;;;
  ret {| status := 200; json := OkTrue |}.

(** POST /api/readings: the [catch] answers 400 and keeps the state the
    exception left. *)
Definition post_readings (now : float) (req_body : value) (s : State)
    : Response * State :=
  match post_readings_try now req_body s with
  | Normal res s' => (res, s')
  | Throw _ s' => ({| status := 400; json := OkFalse "Invalid payload" |}, s')
  end.

(** GET /api/latest. *)
Definition get_latest (s : State) : Response * State :=
  match latestReading s with
  | None => ({| status := 200; json := OkData None |}, s)
  | Some e => ({| status := 200; json := OkData (Some e) |}, s)
  end.

(** The requests served, and one step of the server. *)
Inductive Request : Type :=
| PostReadings (now : float) (req_body : value)
| GetLatest.

Definition serve (rq : Request) (s : State) : Response * State :=
  match rq with
  | PostReadings now req_body => post_readings now req_body s
  | GetLatest => get_latest s
  end.

(** The states the server can be in. *)
Inductive reachable : State -> Prop :=
| reach_init : reachable initial_state
| reach_step rq s : reachable s -> reachable (snd (serve rq s)).

End Handlers.

(** ** What a run computes

    The same computation with every property read replaced by its value
    [prop] and every conversion by the number it returns, together with
    the condition under which every conversion does return;
    [post_readings_try_run] below shows that under that condition this is
    what the handler stores, and that otherwise it throws before it
    assigns anything. *)

Section Summary.
Context {host : JSHost}.

Definition reading_of (now : float) (body : value) : Reading :=
  {| temperature := as_number (prop body P_temperature);
     humidity := as_number (prop body P_humidity);
     accel := js_or (prop body P_accel) VNull;
     gyro := js_or (prop body P_gyro) VNull;
     lat := as_number (prop body P_lat);
     lon := as_number (prop body P_lon);
     timestamp := now |}.

(** The guard of the orientation block:
    [reading.accel && typeof reading.accel.x === 'number']. *)
Definition accel_usable (reading : Reading) : bool :=
  truthy (accel reading)
  && String.eqb (typeof (prop (accel reading) P_x)) "number".

Definition locals_of (reading : Reading)
    (intensity : option float) (intensityUnit : option IntensityUnit)
    : Locals :=
  if accel_usable reading then
    orientation (number_of (prop (accel reading) P_x))
                (number_of (prop (accel reading) P_y))
                (number_of (prop (accel reading) P_z))
                intensity intensityUnit
  else (intensity, intensityUnit, None, None).

Definition impact_of (reading : Reading) : list string :=
  if truthy (accel reading) then
    impact_alerts (number_of (js_or (prop (accel reading) P_x) (VNum 0)))
                  (number_of (js_or (prop (accel reading) P_y) (VNum 0)))
                  (number_of (js_or (prop (accel reading) P_z) (VNum 0)))
  else [].

(** The conversions of the orientation block (lines 88-90) all return. *)
Definition accel_block_ok (reading : Reading) : bool :=
  if accel_usable reading then
    convertible (prop (accel reading) P_x)
    && convertible (prop (accel reading) P_y)
    && convertible (prop (accel reading) P_z)
  else true.

(** The conversions of the impact block (lines 137-139) all return. *)
Definition impact_block_ok (reading : Reading) : bool :=
  if truthy (accel reading) then
    convertible (js_or (prop (accel reading) P_x) (VNum 0))
    && convertible (js_or (prop (accel reading) P_y) (VNum 0))
    && convertible (js_or (prop (accel reading) P_z) (VNum 0))
  else true.

(** No conversion of the [try] block throws. *)
Definition conversions_return (reading : Reading) : bool :=
  accel_block_ok reading && impact_block_ok reading.

Definition enrich (reading : Reading) (previous : option Reading)
    : Enriched :=
  let '(intensity0, intensityUnit0) := gps_block reading previous in
  let '(intensity_, intensityUnit_, pitch_, roll_) :=
    locals_of reading intensity0 intensityUnit0 in
  {| raw := reading;
     intensity := intensity_;
     intensityUnit := intensityUnit_;
     pitch := pitch_;
     roll := roll_;
     alerts := (temperature_alerts (temperature reading)
                ++ humidity_alerts (humidity reading)
                ++ movement_alerts intensity_ intensityUnit_)
               ++ impact_of reading |}.

(** The condition of the GPS branch (lines 69-75). *)
Definition gps_usable (reading : Reading) (previous : option Reading)
    : bool :=
  match lat reading, lon reading, previous with
  | Some _, Some _, Some p =>
      match lat p, lon p with
      | Some _, Some _ => true
      | _, _ => false
      end
  | _, _, _ => false
  end.

(** [angle_out rad]: [Number.isFinite(rad) ? toDegrees(rad) : null]. *)
Definition angle_out (rad : float) : option float :=
  if Number_isFinite rad then Some (toDegrees rad) else None.

End Summary.

(** ** Vocabulary of the statements *)

(** The body is an object (a map), as opposed to absent, a primitive or an
    array. *)
Definition is_object (v : value) : bool :=
  match v with
  | VObj _ => true
  | _ => false
  end.

(** An accelerometer or gyroscope value of the expected shape: an object
    whose [x], [y] and [z] are numbers. *)
Definition is_vector (v : value) : bool :=
  is_object v
  && String.eqb (typeof (prop v P_x)) "number"
  && String.eqb (typeof (prop v P_y)) "number"
  && String.eqb (typeof (prop v P_z)) "number".

(** The pitch and roll angles, in radians, of raw counts [ax], [ay],
    [az] (lines 92-106). *)
Definition pitchRad_of {host : JSHost} (ax ay az : float) : float :=
  let gX := (ax / 16384)%float in
  let gY := (ay / 16384)%float in
  let gZ := (az / 16384)%float in
  Math_atan2 gX (num_or (Math_sqrt (gY * gY + gZ * gZ)) 1e-9).

Definition rollRad_of {host : JSHost} (ay az : float) : float :=
  let gY := (ay / 16384)%float in
  let gZ := (az / 16384)%float in
  Math_atan2 (- gY) (num_or gZ 1e-9).

(** The net linear acceleration, in m/s2, of raw counts (lines 97-100). *)
Definition linear_acceleration (ax ay az : float) : float :=
  let gX := (ax / 16384)%float in
  let gY := (ay / 16384)%float in
  let gZ := (az / 16384)%float in
  (Math_max 0 (Math_sqrt (gX * gX + gY * gY + gZ * gZ) - 1) * 9.80665)%float.

(** A host for running the handlers on concrete requests: the small-angle
    approximations [sin x = x], [cos x = 1], [atan2 y x = y / x]
    (ECMAScript leaves the accuracy of these built-ins to the engine), and
    no string is a numeral. *)
Definition small_angle_host : JSHost :=
  {| Math_sin := fun x => x;
     Math_cos := fun _ => 1%float;
     Math_atan2 := fun y x => (y / x)%float;
     StringToNumber := fun _ => nan;
     NumberToString := fun _ => "NaN" |}.


(** ** Sequences of requests *)

(** Whether a request is an ingest whose conversions all return; by
    [post_answer] below these are the ingests answered 200. *)
Definition is_accepted_post {host : JSHost} (rq : Request) : bool :=
  match rq with
  | PostReadings now req_body =>
      conversions_return (reading_of now (js_or req_body (VObj [])))
  | GetLatest => false
  end.

(** Whether a request is an ingest. *)
Definition is_post (rq : Request) : bool :=
  match rq with
  | PostReadings _ _ => true
  | GetLatest => false
  end.

(** The state after serving the requests of a list, oldest first. *)
Fixpoint serve_all {host : JSHost} (rqs : list Request) (s : State) : State :=
  match rqs with
  | [] => s
  | rq :: rest => serve_all rest (snd (serve rq s))
  end.

(** The sign of a number as its specification shows it: not negative
    (NaN has no sign). *)
Definition sf_nonneg (x : spec_float) : Prop :=
  match x with
  | S754_zero s | S754_infinity s | S754_finite s _ _ => s = false
  | S754_nan => True
  end.

(** What the GPS branch reads of the previous sample: its position and
    timestamp when it has both coordinates, nothing otherwise. *)
Definition fix_of (previous : option Reading)
    : option (float * float * float) :=
  match previous with
  | Some p =>
      match lat p, lon p with
      | Some plat, Some plon => Some (plat, plon, timestamp p)
      | _, _ => None
      end
  | None => None
  end.

(** ** Running the handler *)

Section Runs.
Context {host : JSHost}.

Lemma Get_truthy v k s :
  truthy v = true -> Get v k s = Normal (prop v k) s.
Proof. destruct v; simpl; intros H; try discriminate; reflexivity. Qed.

Lemma js_or_truthy a b : truthy b = true -> truthy (js_or a b) = true.
Proof. unfold js_or; destruct (truthy a) eqn:E; auto. Qed.

Lemma number_field_run body k s :
  truthy body = true ->
  number_field body k s = Normal (as_number (prop body k)) s.
Proof.
  intros Hb. unfold number_field, bind.
  rewrite (Get_truthy body k s Hb).
  destruct (String.eqb (typeof (prop body k)) "number") eqn:E.
  - rewrite (Get_truthy body k s Hb). reflexivity.
  - destruct (prop body k); simpl in *; try discriminate; reflexivity.
Qed.

Lemma make_reading_run now body s :
  truthy body = true ->
  make_reading now body s = Normal (reading_of now body) s.
Proof.
  intros Hb. unfold make_reading, bind.
  repeat first [ rewrite number_field_run by exact Hb
               | rewrite Get_truthy by exact Hb ].
  reflexivity.
Qed.

Lemma lift_Number v s :
  lift (Number v) s
  = if convertible v then Normal (number_of v) s else Throw TypeError s.
Proof.
  unfold lift, convertible, number_of.
  destruct (Number v) as [n|[]]; reflexivity.
Qed.

(** A value whose conversion throws is an array or an object, hence
    truthy: [v || 0] converts exactly when [v] does. *)
Lemma convertible_js_or v :
  convertible (js_or v (VNum 0)) = convertible v.
Proof.
  unfold js_or. destruct (truthy v) eqn:E; [reflexivity|].
  destruct v; try discriminate E; reflexivity.
Qed.

Lemma accel_block_run reading i u s :
  accel_block reading i u s
  = if accel_block_ok reading then Normal (locals_of reading i u) s
    else Throw TypeError s.
Proof.
  unfold accel_block, accel_block_ok, locals_of, accel_usable.
  destruct (truthy (accel reading)) eqn:Ha; simpl; [|reflexivity].
  unfold bind. rewrite (Get_truthy _ P_x s Ha).
  destruct (String.eqb (typeof (prop (accel reading) P_x)) "number");
    [|reflexivity].
  rewrite (Get_truthy _ P_x s Ha), lift_Number.
  destruct (convertible (prop (accel reading) P_x)); [|reflexivity].
  rewrite (Get_truthy _ P_y s Ha), lift_Number.
  destruct (convertible (prop (accel reading) P_y)); [|reflexivity].
  rewrite (Get_truthy _ P_z s Ha), lift_Number.
  destruct (convertible (prop (accel reading) P_z)); reflexivity.
Qed.

Lemma impact_block_run reading s :
  impact_block reading s
  = if impact_block_ok reading then Normal (impact_of reading) s
    else Throw TypeError s.
Proof.
  unfold impact_block, impact_block_ok, impact_of.
  destruct (truthy (accel reading)) eqn:Ha; [|reflexivity].
  unfold bind. rewrite (Get_truthy _ P_x s Ha), lift_Number.
  destruct (convertible (js_or (prop (accel reading) P_x) (VNum 0)));
    [|reflexivity].
  rewrite (Get_truthy _ P_y s Ha), lift_Number.
  destruct (convertible (js_or (prop (accel reading) P_y) (VNum 0)));
    [|reflexivity].
  rewrite (Get_truthy _ P_z s Ha), lift_Number.
  destruct (convertible (js_or (prop (accel reading) P_z) (VNum 0)));
    reflexivity.
Qed.

(** The [try] block either ends normally, with both variables assigned
    and the answer [200 { ok: true }], or throws out of a conversion, and
    then it has assigned nothing. *)
Lemma post_readings_try_run now req_body s :
  let reading := reading_of now (js_or req_body (VObj [])) in
  post_readings_try now req_body s =
  if conversions_return reading then
    Normal {| status := 200; json := OkTrue |}
           {| previousReading := Some reading;
              latestReading := Some (enrich reading (previousReading s)) |}
  else Throw TypeError s.
Proof.
  intros reading. unfold post_readings_try, bind, conversions_return.
  rewrite make_reading_run by (apply js_or_truthy; reflexivity).
  fold reading. unfold read_previousReading, enrich.
  destruct (gps_block reading (previousReading s)) as [i0 u0].
  rewrite accel_block_run.
  destruct (accel_block_ok reading); [|reflexivity]. cbn [andb].
  destruct (locals_of reading i0 u0) as [[[i1 u1] p1] r1].
  rewrite impact_block_run.
  destruct (impact_block_ok reading); reflexivity.
Qed.

Lemma post_readings_run now req_body s :
  let reading := reading_of now (js_or req_body (VObj [])) in
  post_readings now req_body s =
  if conversions_return reading then
    ({| status := 200; json := OkTrue |},
     {| previousReading := Some reading;
        latestReading := Some (enrich reading (previousReading s)) |})
  else ({| status := 400; json := OkFalse "Invalid payload" |}, s).
Proof.
  intros reading. unfold post_readings.
  rewrite post_readings_try_run. fold reading.
  destruct (conversions_return reading); reflexivity.
Qed.

Lemma post_readings_ok now req_body s :
  conversions_return (reading_of now (js_or req_body (VObj []))) = true ->
  post_readings now req_body s =
  ({| status := 200; json := OkTrue |},
   {| previousReading := Some (reading_of now (js_or req_body (VObj [])));
      latestReading :=
        Some (enrich (reading_of now (js_or req_body (VObj [])))
                     (previousReading s)) |}).
Proof. intros H. rewrite post_readings_run. cbv zeta. rewrite H. reflexivity. Qed.

Lemma post_readings_failed now req_body s :
  conversions_return (reading_of now (js_or req_body (VObj []))) = false ->
  post_readings now req_body s =
  ({| status := 400; json := OkFalse "Invalid payload" |}, s).
Proof. intros H. rewrite post_readings_run. cbv zeta. rewrite H. reflexivity. Qed.

(** An ingest is answered 200 exactly when its conversions return. *)
Lemma post_answer now req_body s :
  status (fst (post_readings now req_body s)) = 200%Z
  <-> conversions_return (reading_of now (js_or req_body (VObj []))) = true.
Proof.
  rewrite post_readings_run. cbv zeta.
  destruct (conversions_return _); simpl; split; intros H;
    try reflexivity; discriminate H.
Qed.

(** The conversions return exactly when [accel] is falsy or its three
    counts convert. *)
Lemma conversions_return_counts r :
  conversions_return r
  = if truthy (accel r) then
      convertible (prop (accel r) P_x)
      && convertible (prop (accel r) P_y)
      && convertible (prop (accel r) P_z)
    else true.
Proof.
  unfold conversions_return, accel_block_ok, impact_block_ok, accel_usable.
  rewrite !convertible_js_or.
  destruct (truthy (accel r)); [|reflexivity]. cbn [andb].
  destruct (String.eqb (typeof (prop (accel r) P_x)) "number");
    destruct (convertible (prop (accel r) P_x)),
      (convertible (prop (accel r) P_y)),
      (convertible (prop (accel r) P_z)); reflexivity.
Qed.

End Runs.

(** ** The parts of an enriched reading *)

Section Parts.
Context {host : JSHost}.

Lemma enrich_raw r p : raw (enrich r p) = r.
Proof.
  unfold enrich. destruct (gps_block r p) as [i0 u0].
  destruct (locals_of r i0 u0) as [[[i1 u1] p1] r1]. reflexivity.
Qed.

Lemma enrich_locals r p :
  (intensity (enrich r p), intensityUnit (enrich r p),
   pitch (enrich r p), roll (enrich r p))
  = locals_of r (fst (gps_block r p)) (snd (gps_block r p)).
Proof.
  unfold enrich. destruct (gps_block r p) as [i0 u0]. simpl.
  destruct (locals_of r i0 u0) as [[[i1 u1] p1] r1]. reflexivity.
Qed.

Lemma enrich_pitch r p :
  pitch (enrich r p)
  = snd (fst (locals_of r (fst (gps_block r p)) (snd (gps_block r p)))).
Proof. rewrite <- enrich_locals. reflexivity. Qed.

Lemma enrich_roll r p :
  roll (enrich r p)
  = snd (locals_of r (fst (gps_block r p)) (snd (gps_block r p))).
Proof. rewrite <- enrich_locals. reflexivity. Qed.

Lemma enrich_intensity r p :
  intensity (enrich r p)
  = fst (fst (fst (locals_of r (fst (gps_block r p))
                             (snd (gps_block r p))))).
Proof. rewrite <- enrich_locals. reflexivity. Qed.

Lemma enrich_intensityUnit r p :
  intensityUnit (enrich r p)
  = snd (fst (fst (locals_of r (fst (gps_block r p))
                             (snd (gps_block r p))))).
Proof. rewrite <- enrich_locals. reflexivity. Qed.

Lemma enrich_alerts r p :
  alerts (enrich r p)
  = (temperature_alerts (temperature r)
     ++ humidity_alerts (humidity r)
     ++ movement_alerts (intensity (enrich r p))
                        (intensityUnit (enrich r p)))
    ++ impact_of r.
Proof.
  unfold enrich. destruct (gps_block r p) as [i0 u0].
  destruct (locals_of r i0 u0) as [[[i1 u1] p1] r1]. reflexivity.
Qed.

Lemma orientation_spec ax ay az i u :
  orientation ax ay az i u
  = (match i with
     | None => Some (linear_acceleration ax ay az)
     | Some _ => i
     end,
     match i with
     | None => Some m_s2
     | Some _ => u
     end,
     angle_out (pitchRad_of ax ay az),
     angle_out (rollRad_of ay az)).
Proof. destruct i; reflexivity. Qed.

Lemma gps_block_fires r p pr rlat rlon plat plon :
  lat r = Some rlat -> lon r = Some rlon -> p = Some pr ->
  lat pr = Some plat -> lon pr = Some plon ->
  gps_block r p
  = (Some (haversineDistanceMeters plat plon rlat rlon
           / (Math_max 1 (timestamp r - timestamp pr) / 1000))%float,
     Some m_s).
Proof.
  intros H1 H2 -> H3 H4. unfold gps_block.
  rewrite H1, H2, H3, H4. reflexivity.
Qed.

Lemma gps_block_cases r p :
  (gps_usable r p = true
   /\ exists i, gps_block r p = (Some i, Some m_s))
  \/ (gps_usable r p = false /\ gps_block r p = (None, None)).
Proof.
  unfold gps_usable, gps_block.
  destruct (lat r), (lon r), p as [pr|]; try (right; split; reflexivity).
  destruct (lat pr), (lon pr); try (right; split; reflexivity).
  left; split; [reflexivity | eauto].
Qed.

Lemma prop_defined_object v k :
  prop v k <> VUndefined -> exists props, v = VObj props.
Proof. destruct v; simpl; intros H; try congruence; eauto. Qed.

Lemma js_or_object v k b : prop v k <> VUndefined -> js_or v b = v.
Proof.
  intros H. destruct (prop_defined_object v k H) as [props ->].
  reflexivity.
Qed.

Lemma as_number_Some v n : as_number v = Some n <-> v = VNum n.
Proof.
  destruct v; simpl; split; intros H; try discriminate; congruence.
Qed.

Lemma as_number_None v :
  as_number v = None <-> String.eqb (typeof v) "number" = false.
Proof.
  destruct v; simpl; split; intros H; try discriminate; reflexivity.
Qed.

Lemma convertible_object props :
  convertible (VObj props) = negb (has_own "toString" props).
Proof.
  unfold convertible. cbn [Number ToString].
  destruct (has_own "toString" props); reflexivity.
Qed.

(** Only arrays and objects can fail to convert. *)
Lemma convertible_primitive v :
  match v with
  | VArr _ | VObj _ => True
  | _ => convertible v = true
  end.
Proof. destruct v; try exact I; reflexivity. Qed.

(** What an ingest stores in terms of the body's own [accel]. *)
Lemma truthy_accel now body :
  truthy (accel (reading_of now body)) = truthy (prop body P_accel).
Proof.
  cbn [accel reading_of]. unfold js_or.
  destruct (truthy (prop body P_accel)) eqn:E; [exact E | reflexivity].
Qed.

Lemma accel_of_truthy now body :
  truthy (prop body P_accel) = true ->
  accel (reading_of now body) = prop body P_accel.
Proof. intros H. cbn [accel reading_of]. unfold js_or. rewrite H. reflexivity. Qed.

(** Counts that are numbers or missing always convert. *)
Lemma conversions_return_numbers now body :
  (truthy (prop body P_accel) = true ->
   convertible (prop (prop body P_accel) P_x) = true
   /\ convertible (prop (prop body P_accel) P_y) = true
   /\ convertible (prop (prop body P_accel) P_z) = true) ->
  conversions_return (reading_of now body) = true.
Proof.
  intros H. rewrite conversions_return_counts, truthy_accel.
  destruct (truthy (prop body P_accel)) eqn:E; [|reflexivity].
  rewrite (accel_of_truthy now body E).
  destruct (H eq_refl) as (Hx & Hy & Hz). rewrite Hx, Hy, Hz. reflexivity.
Qed.

Lemma conversions_return_inv now body :
  conversions_return (reading_of now body) = true ->
  truthy (prop body P_accel) = true ->
  convertible (prop (prop body P_accel) P_x) = true
  /\ convertible (prop (prop body P_accel) P_y) = true
  /\ convertible (prop (prop body P_accel) P_z) = true.
Proof.
  intros H E. rewrite conversions_return_counts, truthy_accel, E in H.
  rewrite (accel_of_truthy now body E) in H.
  apply andb_true_iff in H. destruct H as [H Hz].
  apply andb_true_iff in H. tauto.
Qed.

End Parts.

(** ** Failure modes of ingest *)

(** Reading a field of an absent body does throw: it is the guard
    [req.body || {}] of line 48 that keeps the handler from doing so. *)
Lemma make_reading_of_undefined_throws (host : JSHost) now s :
  make_reading now VUndefined s = Throw TypeError s
  /\ make_reading now (js_or VUndefined (VObj [])) s
     = Normal (reading_of now (VObj [])) s.
Proof. split; reflexivity. Qed.

(** C1, as stated, fails in both directions.  An absent body is replaced
    by the empty object (line 48), and a body that is not a map, such as
    an array, simply has none of the fields: both are answered 200.  And a
    body that is an object is answered 400 "Invalid payload" when the
    conversion of an [accel] count throws, as it does for a count that is
    an object with an own [toString] key (line 137). *)
Lemma ingest_failure_is_not_about_objects :
  is_object VUndefined = false
  /\ is_object (VArr [VNum 1]) = false
  /\ is_object
       (VObj [("accel", VObj [("x", VObj [("toString", VNum 1)])])]) = true
  /\ (forall (host : JSHost) now s,
        fst (post_readings now VUndefined s)
        = {| status := 200; json := OkTrue |}
        /\ fst (post_readings now (VArr [VNum 1]) s)
           = {| status := 200; json := OkTrue |}
        /\ post_readings now
             (VObj [("accel", VObj [("x", VObj [("toString", VNum 1)])])]) s
           = ({| status := 400; json := OkFalse "Invalid payload" |}, s)).
Proof.
  split; [reflexivity|]. split; [reflexivity|]. split; [reflexivity|].
  intros host now s.
  split; [rewrite post_readings_ok by reflexivity; reflexivity|].
  split; [rewrite post_readings_ok by reflexivity; reflexivity|].
  apply post_readings_failed. reflexivity.
Qed.

(** C1 (amended): an absent body, or a body that is not an object, does
    not make ingest fail; and for every body in which the [x], [y] and [z]
    of a truthy [accel] all convert to numbers (none is an object with an
    own [toString] key, or an array that reaches one), ingest returns
    success, [200 { ok: true }], regardless of how many optional fields
    are absent or malformed.  An absent or non-object body has no [accel],
    so it meets the condition. *)
Theorem ingest_succeeds_when_counts_convert (host : JSHost) now req_body s :
  let accel_ := prop (js_or req_body (VObj [])) P_accel in
  (truthy accel_ = true ->
   convertible (prop accel_ P_x) = true
   /\ convertible (prop accel_ P_y) = true
   /\ convertible (prop accel_ P_z) = true) ->
  fst (post_readings now req_body s) = {| status := 200; json := OkTrue |}
  /\ (is_object req_body = false -> truthy accel_ = false).
Proof.
  intros accel_ H. split.
  - rewrite post_readings_ok; [reflexivity|].
    apply conversions_return_numbers. exact H.
  - clear H. subst accel_. unfold js_or.
    destruct req_body; intros Hobj; try discriminate Hobj;
      try reflexivity;
      match goal with |- context [if ?c then _ else _] => destruct c end;
      reflexivity.
Qed.

(** A body whose every field is malformed, with counts that are a string,
    an array and [null]. *)
Lemma ingest_succeeds_when_counts_convert_witness :
  exists now req_body s,
    forall host : JSHost,
      fst (post_readings now req_body s)
      = {| status := 200; json := OkTrue |}.
Proof.
  exists 1000%float,
    (VObj [("temperature", VStr "hot"); ("lat", VNull); ("gyro", VNum 7);
           ("accel", VObj [("x", VStr "1"); ("y", VArr [VNum 2]);
                           ("z", VNull)])]),
    initial_state.
  intros host.
  apply (ingest_succeeds_when_counts_convert host 1000
           (VObj [("temperature", VStr "hot"); ("lat", VNull);
                  ("gyro", VNum 7);
                  ("accel", VObj [("x", VStr "1"); ("y", VArr [VNum 2]);
                                  ("z", VNull)])])
           initial_state).
  intros _. repeat split.
Defined.



(** C3, as stated, fails: the ingest handler answers [{ ok: true }] and
    nothing else, so what it returns is not what GET /api/latest returns
    next. *)
Lemma ingest_answer_is_not_the_reading :
  exists req_body,
    forall (host : JSHost) now s,
      json (fst (post_readings now req_body s)) = OkTrue
      /\ fst (post_readings now req_body s)
         <> fst (get_latest (snd (post_readings now req_body s))).
Proof.
  exists (VObj []). intros host now s.
  rewrite post_readings_ok by reflexivity. simpl.
  split; [reflexivity | discriminate].
Qed.

(** C3 (amended): every successful ingest stores the newly computed
    enriched reading in [latestReading] and answers only [{ ok: true }];
    GET /api/latest right after a successful ingest answers with exactly
    that stored reading and leaves the state alone. *)
Theorem latest_after_ingest (host : JSHost) now req_body s :
  status (fst (post_readings now req_body s)) = 200%Z ->
  let s' := snd (post_readings now req_body s) in
  let e := enrich (reading_of now (js_or req_body (VObj [])))
                  (previousReading s) in
  fst (post_readings now req_body s) = {| status := 200; json := OkTrue |}
  /\ latestReading s' = Some e
  /\ get_latest s' = ({| status := 200; json := OkData (Some e) |}, s').
Proof.
  intros Hok s' e. subst s' e. apply post_answer in Hok.
  rewrite (post_readings_ok _ _ _ Hok). simpl.
  repeat split.
Qed.

(** An ingest with a temperature into the initial state. *)
Lemma latest_after_ingest_witness :
  exists now req_body,
    forall host : JSHost,
      let s' := snd (post_readings now req_body initial_state) in
      status (fst (post_readings now req_body initial_state)) = 200%Z
      /\ exists e,
           latestReading s' = Some e
           /\ temperature (raw e) = Some 20%float
           /\ fst (get_latest s')
              = {| status := 200; json := OkData (Some e) |}.
Proof.
  exists 1000%float, (VObj [("temperature", VNum 20)]).
  intros host s'.
  assert (Hok : status (fst (post_readings 1000
                               (VObj [("temperature", VNum 20)])
                               initial_state)) = 200%Z)
    by (rewrite post_readings_ok by reflexivity; reflexivity).
  split; [exact Hok|].
  destruct (latest_after_ingest host 1000 (VObj [("temperature", VNum 20)])
              initial_state Hok) as (_ & He & Hget).
  eexists. split; [exact He|]. split.
  - rewrite enrich_raw. reflexivity.
  - subst s'. rewrite Hget. reflexivity.
Defined.

(** ** Coercion of the body into a sample *)

(** C4, as stated, fails for [accel] and [gyro]: the handler keeps any
    truthy value of the body there (lines 54-55), whatever its shape. *)
Lemma malformed_accel_is_stored :
  exists req_body,
    is_vector (prop req_body P_accel) = false
    /\ is_vector (prop req_body P_gyro) = false
    /\ forall (host : JSHost) now s,
         exists r,
           previousReading (snd (post_readings now req_body s)) = Some r
           /\ accel r = VObj [("x", VStr "fast")]
           /\ gyro r = VStr "n/a"
           /\ accel r <> VNull /\ gyro r <> VNull.
Proof.
  exists (VObj [("accel", VObj [("x", VStr "fast")]); ("gyro", VStr "n/a")]).
  split; [reflexivity|]. split; [reflexivity|].
  intros host now s. rewrite post_readings_ok by reflexivity. simpl.
  eexists. split; [reflexivity|]. simpl.
  repeat split; discriminate.
Qed.

(** C4 (amended): for every ingested body, [temperature], [humidity],
    [lat] and [lon] are put in the sample as the body's value when that
    value is a number and as absent otherwise; [accel] and [gyro] are put
    there as the body's value whenever that value is truthy, whatever its
    shape, and as absent when it is falsy; building the sample (lines
    51-59) never fails, however malformed the fields are; and the sample
    built is the one a successful ingest stores. *)
Theorem coercion_of_fields (host : JSHost) now req_body s :
  let body := js_or req_body (VObj []) in
  let scalar (field : option float) (k : PropName) :=
    (forall n, field = Some n <-> prop body k = VNum n)
    /\ (field = None <-> String.eqb (typeof (prop body k)) "number" = false) in
  let vector (field : value) (k : PropName) :=
    field = (if truthy (prop body k) then prop body k else VNull) in
  exists r,
    make_reading now body s = Normal r s
    /\ scalar (temperature r) P_temperature
    /\ scalar (humidity r) P_humidity
    /\ scalar (lat r) P_lat
    /\ scalar (lon r) P_lon
    /\ vector (accel r) P_accel
    /\ vector (gyro r) P_gyro
    /\ timestamp r = now
    /\ (status (fst (post_readings now req_body s)) = 200%Z ->
        exists e,
          post_readings now req_body s
          = ({| status := 200; json := OkTrue |},
             {| previousReading := Some r; latestReading := Some e |})
          /\ raw e = r).
Proof.
  intros body scalar vector.
  exists (reading_of now body).
  split; [apply make_reading_run; apply js_or_truthy; reflexivity|].
  subst scalar vector. cbn [temperature humidity lat lon accel gyro timestamp
                              reading_of].
  repeat match goal with |- _ /\ _ => split end;
    try (intros n; split; intros H; apply as_number_Some; exact H);
    try (split; intros H; apply as_number_None; exact H);
    try reflexivity.
  intros Hok. apply post_answer in Hok.
  eexists. split; [apply (post_readings_ok _ _ _ Hok) | apply enrich_raw].
Qed.

(** ** Movement intensity *)

(** C5: in every successful ingest, when the body carries numeric [lat]
    and [lon] and the stored previous sample has [lat] and [lon] too, the
    intensity is the haversine distance between the two fixes divided by
    [max(1, now - previous.timestamp) / 1000], and its unit is ['m_s'];
    this holds whatever [accel] the body carries, so the acceleration
    unit ['m_s2'] is never reported in that case. *)
Theorem gps_priority (host : JSHost) now req_body s p plat plon rlat rlon :
  status (fst (post_readings now req_body s)) = 200%Z ->
  previousReading s = Some p ->
  lat p = Some plat -> lon p = Some plon ->
  prop req_body P_lat = VNum rlat ->
  prop req_body P_lon = VNum rlon ->
  exists e,
    latestReading (snd (post_readings now req_body s)) = Some e
    /\ intensity e
       = Some (haversineDistanceMeters plat plon rlat rlon
               / (Math_max 1 (now - timestamp p) / 1000))%float
    /\ intensityUnit e = Some m_s
    /\ intensityUnit e <> Some m_s2.
Proof.
  intros Hok Hp Hplat Hplon Hlat Hlon.
  apply post_answer in Hok. rewrite (post_readings_ok _ _ _ Hok).
  rewrite (js_or_object req_body P_lat) by (rewrite Hlat; discriminate).
  simpl. eexists. split; [reflexivity|].
  set (r := reading_of now req_body).
  pose proof (enrich_locals r (previousReading s)) as HL.
  rewrite (gps_block_fires r (previousReading s) p rlat rlon plat plon) in HL;
    try assumption;
    try (subst r; simpl; first [ rewrite Hlat | rewrite Hlon ]; reflexivity).
  simpl in HL. unfold locals_of in HL.
  destruct (accel_usable r);
    [rewrite orientation_spec in HL|]; injection HL as Hi Hu _ _;
    (split; [exact Hi | split; [exact Hu | rewrite Hu; discriminate]]).
Qed.

(** A body with a GPS fix and a full accelerometer vector, ingested after a
    sample that had a fix: the unit is ['m_s']. *)
Lemma gps_priority_witness :
  exists now req_body,
    forall host : JSHost,
      let s := snd (post_readings 1000
                      (VObj [("lat", VNum 0); ("lon", VNum 0)])
                      initial_state) in
      exists e,
        latestReading (snd (post_readings now req_body s)) = Some e
        /\ truthy (accel (raw e)) = true
        /\ intensity e
           = Some (haversineDistanceMeters 0 0 0 0.001
                   / (Math_max 1 (now - 1000) / 1000))%float
        /\ intensityUnit e = Some m_s.
Proof.
  exists 2000%float,
    (VObj [("lat", VNum 0); ("lon", VNum 0.001);
           ("accel", VObj [("x", VNum 0); ("y", VNum 0); ("z", VNum 16384)])]).
  intros host s.
  assert (Hprev : previousReading s
                  = Some (reading_of 1000
                            (VObj [("lat", VNum 0); ("lon", VNum 0)])))
    by (subst s; rewrite post_readings_ok by reflexivity; reflexivity).
  assert (Hok : status (fst (post_readings 2000
           (VObj [("lat", VNum 0); ("lon", VNum 0.001);
                  ("accel", VObj [("x", VNum 0); ("y", VNum 0);
                                  ("z", VNum 16384)])]) s)) = 200%Z)
    by (rewrite post_readings_ok by reflexivity; reflexivity).
  destruct (gps_priority host 2000 (VObj [("lat", VNum 0); ("lon", VNum 0.001);
           ("accel", VObj [("x", VNum 0); ("y", VNum 0); ("z", VNum 16384)])])
              s (reading_of 1000 (VObj [("lat", VNum 0); ("lon", VNum 0)]))
              0 0 0 0.001 Hok Hprev)
    as (e & He & Hi & Hu & _);
    try reflexivity.
  exists e. split; [exact He|]. split; [|split; [exact Hi | exact Hu]].
  revert He. rewrite post_readings_ok by reflexivity.
  cbn [snd latestReading]. intros [= <-]. rewrite enrich_raw. reflexivity.
Defined.

(** ** Facts shared by the statements below *)

Section AlertFacts.
Context {host : JSHost}.

(** The alerts raised before the impact block are none of the two impact
    alerts. *)
Lemma early_alerts_not_impact t h i u a :
  In a (temperature_alerts t ++ humidity_alerts h ++ movement_alerts i u) ->
  a <> ALERT_TILT /\ a <> ALERT_SHOCK.
Proof.
  intros H. apply in_app_or in H. destruct H as [H | H].
  - unfold temperature_alerts in H. destruct t as [t|]; [|destruct H].
    destruct (50 <? t)%float; [|destruct (40 <? t)%float;
                                [|destruct (t <? 0)%float]];
      simpl in H; try contradiction;
      destruct H as [<- | []]; split; discriminate.
  - apply in_app_or in H. destruct H as [H | H].
    + unfold humidity_alerts in H. destruct h as [h|]; [|destruct H].
      destruct (90 <? h)%float; [|destruct (h <? 20)%float];
        simpl in H; try contradiction;
        destruct H as [<- | []]; split; discriminate.
    + unfold movement_alerts in H.
      destruct u as [[|]|]; simpl in H; try contradiction.
      destruct i as [i|]; [|destruct H].
      destruct (20 <? i)%float; simpl in H; try contradiction.
      destruct H as [<- | []]; split; discriminate.
Qed.

(** The angles attached by a successful ingest when [accel.x] is a
    number. *)
Lemma orientation_angles now req_body s ax :
  prop (prop req_body P_accel) P_x = VNum ax ->
  conversions_return (reading_of now (js_or req_body (VObj []))) = true ->
  let ay := number_of (prop (prop req_body P_accel) P_y) in
  let az := number_of (prop (prop req_body P_accel) P_z) in
  exists e,
    latestReading (snd (post_readings now req_body s)) = Some e
    /\ pitch e = angle_out (pitchRad_of ax ay az)
    /\ roll e = angle_out (rollRad_of ay az).
Proof.
  intros Hx Hok ay az.
  assert (Ha : exists props, prop req_body P_accel = VObj props)
    by (apply (prop_defined_object _ P_x); rewrite Hx; discriminate).
  destruct Ha as [props Ha].
  rewrite (post_readings_ok _ _ _ Hok).
  rewrite (js_or_object req_body P_accel) by (rewrite Ha; discriminate).
  simpl. eexists. split; [reflexivity|].
  set (r := reading_of now req_body).
  assert (Hacc : accel r = prop req_body P_accel)
    by (subst r; simpl; rewrite Ha; reflexivity).
  pose proof (enrich_locals r (previousReading s)) as HL.
  unfold locals_of, accel_usable in HL.
  rewrite Hacc, Hx in HL. rewrite Ha in HL at 1. simpl in HL.
  rewrite orientation_spec in HL. injection HL as _ _ Hp Hr.
  fold ay az in Hp, Hr. split; [exact Hp | exact Hr].
Qed.

(** Counts that are all numbers, or numbers and missing, convert. *)
Lemma conversions_return_xyz now req_body vx vy vz :
  prop (prop req_body P_accel) P_x = vx ->
  prop (prop req_body P_accel) P_y = vy ->
  prop (prop req_body P_accel) P_z = vz ->
  convertible vx = true -> convertible vy = true -> convertible vz = true ->
  conversions_return (reading_of now (js_or req_body (VObj []))) = true.
Proof.
  intros Hx Hy Hz Cx Cy Cz.
  destruct (truthy (prop req_body P_accel)) eqn:Ha.
  - rewrite (js_or_object req_body P_accel)
      by (intros E; rewrite E in Ha; discriminate).
    apply conversions_return_numbers. intros _.
    rewrite Hx, Hy, Hz. tauto.
  - apply conversions_return_numbers. intros Hacc. exfalso.
    unfold js_or in Hacc. destruct (truthy req_body); [congruence|].
    discriminate Hacc.
Qed.

End AlertFacts.

(** ** Orientation *)

(** C6, as stated, fails: the orientation block is guarded by
    [typeof reading.accel.x === 'number'] (line 87).  With [x: null] the
    stored [accel] is present, and the angles the block would compute from
    [Number(null) = 0] are finite on any host whose [atan2] maps a zero
    numerator to zero, yet neither angle is attached. *)
Lemma accel_without_numeric_x_has_no_angles :
  exists req_body,
    forall (host : JSHost) now s,
      exists e,
        latestReading (snd (post_readings now req_body s)) = Some e
        /\ truthy (accel (raw e)) = true
        /\ pitch e = None /\ roll e = None
        /\ Number (prop (accel (raw e)) P_x) = Done 0%float
        /\ Number (prop (accel (raw e)) P_y) = Done 0%float
        /\ Number (prop (accel (raw e)) P_z) = Done 16384%float
        /\ (Math_atan2 0 1 = 0%float ->
            Math_atan2 (-0) 1 = (-0)%float ->
            angle_out (pitchRad_of 0 0 16384) = Some 0%float
            /\ angle_out (rollRad_of 0 16384) = Some (-0)%float).
Proof.
  exists (VObj [("accel",
                 VObj [("x", VNull); ("y", VNum 0); ("z", VNum 16384)])]).
  intros host now s. rewrite post_readings_ok by reflexivity. simpl.
  eexists. split; [reflexivity|].
  rewrite enrich_raw.
  split; [reflexivity|].
  split; [rewrite enrich_pitch; reflexivity|].
  split; [rewrite enrich_roll; reflexivity|].
  split; [reflexivity|]. split; [reflexivity|]. split; [reflexivity|].
  intros H0 H1. split.
  - change (angle_out (Math_atan2 0 1) = Some 0%float).
    rewrite H0. reflexivity.
  - change (angle_out (Math_atan2 (-0) 1) = Some (-0)%float).
    replace (Math_atan2 (-0) 1) with (-0)%float by (symmetry; exact H1).
    reflexivity.
Qed.

(** C6 (amended): for every successful ingest whose [accel] has a numeric
    [x], pitch and roll are computed from the three counts and attached,
    whether the intensity came from the GPS branch or from the
    accelerometer; an angle that is not finite is stored as absent. *)
Theorem orientation_when_x_is_numeric (host : JSHost) now req_body s ax :
  status (fst (post_readings now req_body s)) = 200%Z ->
  prop (prop req_body P_accel) P_x = VNum ax ->
  let ay := number_of (prop (prop req_body P_accel) P_y) in
  let az := number_of (prop (prop req_body P_accel) P_z) in
  exists e,
    latestReading (snd (post_readings now req_body s)) = Some e
    /\ Number (prop (prop req_body P_accel) P_y) = Done ay
    /\ Number (prop (prop req_body P_accel) P_z) = Done az
    /\ pitch e = angle_out (pitchRad_of ax ay az)
    /\ roll e = angle_out (rollRad_of ay az)
    /\ (Number_isFinite (pitchRad_of ax ay az) = false -> pitch e = None)
    /\ (Number_isFinite (rollRad_of ay az) = false -> roll e = None)
    /\ (Number_isFinite (pitchRad_of ax ay az) = true ->
        pitch e = Some (toDegrees (pitchRad_of ax ay az)))
    /\ (Number_isFinite (rollRad_of ay az) = true ->
        roll e = Some (toDegrees (rollRad_of ay az))).
Proof.
  intros Hok Hx ay az. apply post_answer in Hok.
  destruct (orientation_angles now req_body s ax Hx Hok) as (e & He & Hp & Hr).
  fold ay az in Hp, Hr.
  assert (Ha : truthy (prop req_body P_accel) = true).
  { destruct (prop_defined_object (prop req_body P_accel) P_x) as [props E];
      [rewrite Hx; discriminate | rewrite E; reflexivity]. }
  assert (Hb : js_or req_body (VObj []) = req_body)
    by (apply (js_or_object _ P_accel); intros E; rewrite E in Ha;
        discriminate).
  rewrite Hb in Hok.
  destruct (conversions_return_inv now req_body Hok Ha) as (_ & Cy & Cz).
  exists e. split; [exact He|].
  split; [subst ay; unfold number_of, convertible in *;
          destruct (Number (prop (prop req_body P_accel) P_y));
          [reflexivity | discriminate Cy]|].
  split; [subst az; unfold number_of, convertible in *;
          destruct (Number (prop (prop req_body P_accel) P_z));
          [reflexivity | discriminate Cz]|].
  split; [exact Hp|]. split; [exact Hr|].
  rewrite Hp, Hr. unfold angle_out.
  repeat split; intros H; rewrite H; reflexivity.
Qed.

(** A body with a GPS fix and an accelerometer vector, ingested after a
    sample that had a fix: the intensity comes from the GPS branch and the
    angles are attached all the same. *)
Lemma orientation_when_x_is_numeric_witness :
  exists now req_body,
    forall host : JSHost,
      let s := snd (post_readings 1000
                      (VObj [("lat", VNum 0); ("lon", VNum 0)])
                      initial_state) in
      exists e,
        latestReading (snd (post_readings now req_body s)) = Some e
        /\ pitch e = angle_out (pitchRad_of 0 0 16384)
        /\ roll e = angle_out (rollRad_of 0 16384).
Proof.
  exists 2000%float,
    (VObj [("lat", VNum 0); ("lon", VNum 0.001);
           ("accel", VObj [("x", VNum 0); ("y", VNum 0); ("z", VNum 16384)])]).
  intros host s.
  assert (Hok : status (fst (post_readings 2000
           (VObj [("lat", VNum 0); ("lon", VNum 0.001);
                  ("accel", VObj [("x", VNum 0); ("y", VNum 0);
                                  ("z", VNum 16384)])]) s)) = 200%Z)
    by (rewrite post_readings_ok by reflexivity; reflexivity).
  destruct (orientation_when_x_is_numeric host 2000
              (VObj [("lat", VNum 0); ("lon", VNum 0.001);
                     ("accel", VObj [("x", VNum 0); ("y", VNum 0);
                                     ("z", VNum 16384)])])
              s 0 Hok eq_refl)
    as (e & He & _ & _ & Hp & Hr & _).
  exists e. split; [exact He|]. split; [exact Hp | exact Hr].
Defined.

(** ** Alerts *)

(** C7: with [accel] counts [x = 20000], [y = 0], [z = 0] the absolute [z]
    count is below 12000 and the total magnitude is 20000, above 15000;
    the alerts end with the tilted/falling alert followed by the shock
    alert, and neither occurs earlier in the sequence. *)
Theorem impact_scenario (host : JSHost) now req_body s :
  prop (prop req_body P_accel) P_x = VNum 20000 ->
  prop (prop req_body P_accel) P_y = VNum 0 ->
  prop (prop req_body P_accel) P_z = VNum 0 ->
  (Math_abs 0 <? 12000)%float = true
  /\ Math_sqrt (20000 * 20000 + 0 * 0 + 0 * 0) = 20000%float
  /\ (15000 <? 20000)%float = true
  /\ exists e pre,
       latestReading (snd (post_readings now req_body s)) = Some e
       /\ alerts e = pre ++ [ALERT_TILT; ALERT_SHOCK]
       /\ ~ In ALERT_TILT pre /\ ~ In ALERT_SHOCK pre.
Proof.
  intros Hx Hy Hz.
  split; [reflexivity|]. split; [reflexivity|]. split; [reflexivity|].
  assert (Ha : exists props, prop req_body P_accel = VObj props)
    by (apply (prop_defined_object _ P_x); rewrite Hx; discriminate).
  destruct Ha as [props Ha].
  assert (Hok : conversions_return
                  (reading_of now (js_or req_body (VObj []))) = true)
    by (apply (conversions_return_xyz now req_body _ _ _ Hx Hy Hz);
        reflexivity).
  rewrite (post_readings_ok _ _ _ Hok).
  rewrite (js_or_object req_body P_accel) by (rewrite Ha; discriminate).
  simpl. eexists _, _. split; [reflexivity|].
  set (r := reading_of now req_body).
  assert (Hacc : accel r = prop req_body P_accel)
    by (subst r; simpl; rewrite Ha; reflexivity).
  split.
  - rewrite enrich_alerts. f_equal.
    unfold impact_of. rewrite Hacc, Hx, Hy, Hz, Ha. reflexivity.
  - split; intros Hin; apply early_alerts_not_impact in Hin;
      destruct Hin as [H1 H2]; congruence.
Qed.

(** The impact scenario of the specification, on a body that also carries
    a temperature. *)
Lemma impact_scenario_witness :
  exists now req_body s,
    forall host : JSHost,
      exists e,
        latestReading (snd (post_readings now req_body s)) = Some e
        /\ alerts e = [ALERT_TEMP_HIGH; ALERT_TILT; ALERT_SHOCK].
Proof.
  exists 1000%float,
    (VObj [("temperature", VNum 45);
           ("accel", VObj [("x", VNum 20000); ("y", VNum 0); ("z", VNum 0)])]),
    initial_state.
  intros host.
  destruct (impact_scenario host 1000
              (VObj [("temperature", VNum 45);
                     ("accel", VObj [("x", VNum 20000); ("y", VNum 0);
                                     ("z", VNum 0)])])
              initial_state eq_refl eq_refl eq_refl)
    as (_ & _ & _ & e & pre & He & Hal & _).
  exists e. split; [exact He|].
  revert He. rewrite post_readings_ok by reflexivity. simpl. intros [= <-].
  rewrite enrich_alerts. reflexivity.
Defined.

(** C8: with [accel] counts all zero nothing throws; the pitch denominator
    [sqrt(gY*gY + gZ*gZ)] and the roll divisor [gZ] are both zero and are
    replaced by [1e-9]; and on a host whose [atan2] maps a zero numerator
    and a positive denominator to the zero of the same sign (as ECMAScript
    requires), pitch is [0] and roll is [-0], both finite numbers. *)
Theorem zero_accel_orientation (host : JSHost) now req_body s :
  prop (prop req_body P_accel) P_x = VNum 0 ->
  prop (prop req_body P_accel) P_y = VNum 0 ->
  prop (prop req_body P_accel) P_z = VNum 0 ->
  Math_atan2 0 1e-9 = 0%float ->
  Math_atan2 (-0) 1e-9 = (-0)%float ->
  fst (post_readings now req_body s) = {| status := 200; json := OkTrue |}
  /\ num_or (Math_sqrt (0 / 16384 * (0 / 16384) + 0 / 16384 * (0 / 16384)))
            1e-9 = 1e-9%float
  /\ num_or (0 / 16384) 1e-9 = 1e-9%float
  /\ exists e,
       latestReading (snd (post_readings now req_body s)) = Some e
       /\ pitch e = angle_out (Math_atan2 0 1e-9)
       /\ roll e = angle_out (Math_atan2 (-0) 1e-9)
       /\ pitch e = Some 0%float
       /\ roll e = Some (-0)%float
       /\ Number_isFinite 0 = true
       /\ Number_isFinite (-0) = true.
Proof.
  intros Hx Hy Hz H0 H1.
  assert (Hok : conversions_return
                  (reading_of now (js_or req_body (VObj []))) = true)
    by (apply (conversions_return_xyz now req_body _ _ _ Hx Hy Hz);
        reflexivity).
  destruct (orientation_angles now req_body s 0 Hx Hok)
    as (e & He & Hp & Hr).
  rewrite Hy, Hz in Hp, Hr.
  change (pitch e = angle_out (Math_atan2 0 1e-9)) in Hp.
  change (roll e = angle_out (Math_atan2 (-0) 1e-9)) in Hr.
  split; [rewrite (post_readings_ok _ _ _ Hok); reflexivity|].
  split; [reflexivity|]. split; [reflexivity|].
  exists e. split; [exact He|]. split; [exact Hp|]. split; [exact Hr|].
  split; [|split; [|split; reflexivity]].
  - rewrite Hp. replace (Math_atan2 0 1e-9) with 0%float
      by (symmetry; exact H0). reflexivity.
  - rewrite Hr. replace (Math_atan2 (-0) 1e-9) with (-0)%float
      by (symmetry; exact H1). reflexivity.
Qed.

(** All-zero counts on the small-angle host, whose [atan2 y x = y / x]
    maps a zero numerator to the zero of the same sign. *)
Lemma zero_accel_orientation_witness :
  exists now req_body s,
    @Math_atan2 small_angle_host 0 1e-9 = 0%float
    /\ @Math_atan2 small_angle_host (-0) 1e-9 = (-0)%float
    /\ exists e,
         latestReading (snd (@post_readings small_angle_host now req_body s))
         = Some e
         /\ pitch e = Some 0%float /\ roll e = Some (-0)%float.
Proof.
  exists 1000%float,
    (VObj [("accel", VObj [("x", VNum 0); ("y", VNum 0); ("z", VNum 0)])]),
    initial_state.
  split; [reflexivity|]. split; [reflexivity|].
  destruct (@zero_accel_orientation small_angle_host 1000
              (VObj [("accel",
                      VObj [("x", VNum 0); ("y", VNum 0); ("z", VNum 0)])])
              initial_state eq_refl eq_refl eq_refl eq_refl eq_refl)
    as (_ & _ & _ & e & He & _ & _ & Hp & Hr & _).
  exists e. split; [exact He|]. split; [exact Hp | exact Hr].
Defined.

(** ** The two slots *)

Section Reachability.
Context {host : JSHost}.

(** What the states the server reaches hold: nothing, or the sample of a
    successful ingest together with the reading enriched from it. *)
Lemma reachable_latest s :
  reachable s ->
  forall e,
    latestReading s = Some e ->
    previousReading s = Some (raw e)
    /\ exists s0, reachable s0 /\ e = enrich (raw e) (previousReading s0).
Proof.
  intros Hreach.
  induction Hreach as [|rq s Hs IH]; intros e He.
  - discriminate He.
  - destruct rq as [now req_body|]; cbn [serve] in He |- *.
    + rewrite post_readings_run in He |- *. cbv zeta in He |- *.
      destruct (conversions_return _); cbn [snd] in He |- *.
      * cbn [latestReading previousReading] in He |- *.
        injection He as <-. rewrite enrich_raw.
        split; [reflexivity|]. exists s. split; [exact Hs | reflexivity].
      * apply IH. exact He.
    + assert (Hsame : snd (get_latest s) = s)
        by (unfold get_latest; destruct (latestReading s); reflexivity).
      rewrite Hsame in He |- *. apply IH. exact He.
Qed.

End Reachability.

(** C9: in every state the server can reach, a present [latestReading] has
    as raw fields the sample held in [previousReading], and was computed
    from that sample against the [previousReading] of an earlier reachable
    state; and every successful ingest re-establishes this, computing the
    new latest against the sample [previousReading] held before the
    update. *)
Theorem latest_derived_from_previous (host : JSHost) s :
  reachable s ->
  (forall e,
      latestReading s = Some e ->
      previousReading s = Some (raw e)
      /\ exists s0, reachable s0 /\ e = enrich (raw e) (previousReading s0))
  /\ (forall now req_body,
         status (fst (post_readings now req_body s)) = 200%Z ->
         let s' := snd (post_readings now req_body s) in
         exists e,
           latestReading s' = Some e
           /\ previousReading s' = Some (raw e)
           /\ raw e = reading_of now (js_or req_body (VObj []))
           /\ e = enrich (raw e) (previousReading s)).
Proof.
  intros Hreach. split.
  - apply reachable_latest. exact Hreach.
  - intros now req_body Hok s'. subst s'. apply post_answer in Hok.
    rewrite (post_readings_ok _ _ _ Hok). simpl.
    eexists. split; [reflexivity|]. rewrite enrich_raw.
    repeat split.
Qed.

(** The state after one ingest into the initial state. *)
Lemma latest_derived_from_previous_witness :
  exists now req_body,
    forall host : JSHost,
      let s := snd (serve (PostReadings now req_body) initial_state) in
      reachable s
      /\ exists e,
           latestReading s = Some e
           /\ previousReading s = Some (raw e)
           /\ temperature (raw e) = Some 21.5%float.
Proof.
  exists 1000%float, (VObj [("temperature", VNum 21.5)]).
  intros host s.
  assert (Hs : reachable s) by (apply reach_step; apply reach_init).
  split; [exact Hs|].
  exists (enrich (reading_of 1000 (VObj [("temperature", VNum 21.5)])) None).
  assert (He : latestReading s
               = Some (enrich (reading_of 1000
                                 (VObj [("temperature", VNum 21.5)])) None))
    by (subst s; unfold serve; rewrite post_readings_ok by reflexivity;
        reflexivity).
  split; [exact He|].
  split; [exact (proj1 (proj1 (latest_derived_from_previous host s Hs) _ He))|].
  rewrite enrich_raw. reflexivity.
Defined.

(** C10: in the reading a successful ingest produces, [intensity] is
    absent exactly when [intensityUnit] is; the unit is ['m_s'] exactly
    when the GPS branch ran, and ['m_s2'] exactly when it did not run and
    the accelerometer branch did, in which case the intensity is the net
    linear acceleration. *)
Theorem intensity_pairing (host : JSHost) now req_body s :
  status (fst (post_readings now req_body s)) = 200%Z ->
  exists e,
    latestReading (snd (post_readings now req_body s)) = Some e
    /\ (intensity e = None <-> intensityUnit e = None)
    /\ (intensityUnit e = Some m_s
        <-> gps_usable (raw e) (previousReading s) = true)
    /\ (intensityUnit e = Some m_s2
        <-> gps_usable (raw e) (previousReading s) = false
            /\ accel_usable (raw e) = true)
    /\ (intensityUnit e = Some m_s2 ->
        exists ax ay az,
          Number (prop (accel (raw e)) P_x) = Done ax
          /\ Number (prop (accel (raw e)) P_y) = Done ay
          /\ Number (prop (accel (raw e)) P_z) = Done az
          /\ intensity e = Some (linear_acceleration ax ay az)).
Proof.
  intros Hok. apply post_answer in Hok.
  rewrite (post_readings_ok _ _ _ Hok). simpl. eexists. split; [reflexivity|].
  set (r := reading_of now (js_or req_body (VObj []))) in *.
  rewrite enrich_raw, enrich_intensity, enrich_intensityUnit.
  assert (Hnum : accel_usable r = true ->
                 Number (prop (accel r) P_x)
                 = Done (number_of (prop (accel r) P_x))
                 /\ Number (prop (accel r) P_y)
                    = Done (number_of (prop (accel r) P_y))
                 /\ Number (prop (accel r) P_z)
                    = Done (number_of (prop (accel r) P_z))).
  { intros Hu. unfold conversions_return, accel_block_ok in Hok.
    rewrite Hu in Hok. apply andb_true_iff in Hok. destruct Hok as [Hok _].
    apply andb_true_iff in Hok. destruct Hok as [Hok Cz].
    apply andb_true_iff in Hok. destruct Hok as [Cx Cy].
    unfold convertible in Cx, Cy, Cz. unfold number_of.
    destruct (Number (prop (accel r) P_x)); [|discriminate Cx].
    destruct (Number (prop (accel r) P_y)); [|discriminate Cy].
    destruct (Number (prop (accel r) P_z)); [|discriminate Cz].
    repeat split. }
  unfold locals_of.
  destruct (gps_block_cases r (previousReading s))
    as [[Hg [i Hb]] | [Hg Hb]]; rewrite Hb, Hg;
    destruct (accel_usable r); try rewrite orientation_spec; simpl;
    (split; [intuition congruence|]);
    (split; [intuition congruence|]);
    (split; [intuition congruence|]);
    intros H; try discriminate H.
  destruct (Hnum eq_refl) as (Nx & Ny & Nz).
  eexists _, _, _. split; [exact Nx|]. split; [exact Ny|].
  split; [exact Nz | reflexivity].
Qed.

(** A device at rest with no fix: the unit is ['m_s2']. *)
Lemma intensity_pairing_witness :
  exists now req_body,
    forall host : JSHost,
      status (fst (post_readings now req_body initial_state)) = 200%Z
      /\ exists e,
           latestReading (snd (post_readings now req_body initial_state))
           = Some e
           /\ intensityUnit e = Some m_s2
           /\ intensity e <> None.
Proof.
  exists 1000%float,
    (VObj [("accel", VObj [("x", VNum 0); ("y", VNum 0); ("z", VNum 16384)])]).
  intros host.
  assert (Hok : status (fst (post_readings 1000
           (VObj [("accel", VObj [("x", VNum 0); ("y", VNum 0);
                                  ("z", VNum 16384)])])
           initial_state)) = 200%Z)
    by (rewrite post_readings_ok by reflexivity; reflexivity).
  split; [exact Hok|].
  destruct (intensity_pairing host 1000
              (VObj [("accel", VObj [("x", VNum 0); ("y", VNum 0);
                                     ("z", VNum 16384)])])
              initial_state Hok)
    as (e & He & Hnone & _ & Hacc & _).
  exists e. split; [exact He|].
  assert (Hu : intensityUnit e = Some m_s2).
  { apply Hacc. revert He. rewrite post_readings_ok by reflexivity.
    cbn [snd latestReading]. intros [= <-]. rewrite enrich_raw.
    split; reflexivity. }
  split; [exact Hu|].
  intros Hn. apply Hnone in Hn. rewrite Hn in Hu. discriminate Hu.
Defined.

(** ** Sample runs *)

(** The threshold is strict: a temperature of exactly 50 raises the "high"
    alert of the next rule, not the "extremely high" one. *)
Example temperature_threshold (host : JSHost) now s :
  (exists e,
      latestReading (snd (post_readings now
                            (VObj [("temperature", VNum 50)]) s)) = Some e
      /\ alerts e = [ALERT_TEMP_HIGH])
  /\ (exists e,
        latestReading (snd (post_readings now
                              (VObj [("temperature", VNum 50.0001)]) s))
        = Some e
        /\ alerts e = [ALERT_TEMP_DANGEROUS]).
Proof.
  split; rewrite post_readings_ok by reflexivity; simpl; eexists;
    (split; [reflexivity|]); rewrite enrich_alerts; reflexivity.
Qed.

(** A first sample with a fix only: there is nothing to compare it with,
    so it has neither intensity nor unit nor angles. *)
Example first_fix_has_no_intensity (host : JSHost) now :
  exists e,
    latestReading (snd (post_readings now
                          (VObj [("lat", VNum 0); ("lon", VNum 0)])
                          initial_state)) = Some e
    /\ intensity e = None /\ intensityUnit e = None
    /\ pitch e = None /\ roll e = None /\ alerts e = [].
Proof.
  rewrite post_readings_ok by reflexivity. simpl. eexists. split; [reflexivity|].
  repeat split.
Qed.

(** A device at rest, flat, with no fix: one g on the z axis is a net
    linear acceleration of zero, in ['m_s2']; its total of 16384 counts
    is above the 15000 of the shock rule. *)
Example at_rest_flat (host : JSHost) now :
  exists e,
    latestReading
      (snd (post_readings now
              (VObj [("accel", VObj [("x", VNum 0); ("y", VNum 0);
                                     ("z", VNum 16384)])])
              initial_state)) = Some e
    /\ intensity e = Some 0%float /\ intensityUnit e = Some m_s2
    /\ alerts e = [ALERT_SHOCK].
Proof.
  rewrite post_readings_ok by reflexivity. simpl. eexists. split; [reflexivity|].
  rewrite enrich_alerts, enrich_intensity, enrich_intensityUnit.
  repeat split.
Qed.

(** ** Further properties of the handlers *)

Section MoreFacts.
Context {host : JSHost}.

Lemma get_latest_state s : snd (get_latest s) = s.
Proof. unfold get_latest. destruct (latestReading s); reflexivity. Qed.

Lemma get_latest_answer s :
  fst (get_latest s) = {| status := 200; json := OkData (latestReading s) |}.
Proof. unfold get_latest. destruct (latestReading s); reflexivity. Qed.

Lemma serve_all_app rqs1 rqs2 s :
  serve_all (rqs1 ++ rqs2) s = serve_all rqs2 (serve_all rqs1 s).
Proof.
  revert s. induction rqs1 as [|rq rqs1 IH]; intros s; simpl; auto.
Qed.

Lemma latest_after_requests rqs s :
  latestReading (serve_all rqs s) = None
  <-> latestReading s = None /\ existsb is_accepted_post rqs = false.
Proof.
  revert s. induction rqs as [|rq rqs IH]; intros s;
    cbn [serve_all existsb].
  - tauto.
  - rewrite IH. destruct rq as [now req_body|]; cbn [serve is_accepted_post].
    + rewrite post_readings_run. cbv zeta.
      destruct (conversions_return _); cbn [snd latestReading orb].
      * split; intros [H1 H2]; discriminate.
      * tauto.
    + rewrite get_latest_state. cbn [orb]. tauto.
Qed.

(** An accepted ingest is one answered 200, whatever the state. *)
Lemma accepted_post_answer now req_body s :
  is_accepted_post (PostReadings now req_body) = true
  <-> status (fst (post_readings now req_body s)) = 200%Z.
Proof. rewrite post_answer. reflexivity. Qed.

Lemma temperature_alerts_cases t :
  In (temperature_alerts t)
     [[]; [ALERT_TEMP_DANGEROUS]; [ALERT_TEMP_HIGH]; [ALERT_TEMP_FREEZING]].
Proof.
  unfold temperature_alerts. destruct t as [t|]; [|simpl; tauto].
  destruct (50 <? t)%float; [simpl; tauto|].
  destruct (40 <? t)%float; [simpl; tauto|].
  destruct (t <? 0)%float; simpl; tauto.
Qed.

Lemma humidity_alerts_cases h :
  In (humidity_alerts h) [[]; [ALERT_HUMIDITY_HIGH]; [ALERT_HUMIDITY_LOW]].
Proof.
  unfold humidity_alerts. destruct h as [h|]; [|simpl; tauto].
  destruct (90 <? h)%float; [simpl; tauto|].
  destruct (h <? 20)%float; simpl; tauto.
Qed.

Lemma movement_alerts_cases i u :
  In (movement_alerts i u) [[]; [ALERT_SPEED]].
Proof.
  unfold movement_alerts. destruct u as [[|]|]; try (simpl; tauto).
  destruct i as [i|]; [|simpl; tauto].
  destruct (20 <? i)%float; simpl; tauto.
Qed.

Lemma impact_of_cases r :
  exists a b,
    impact_of r = a ++ b
    /\ In a [[]; [ALERT_TILT]] /\ In b [[]; [ALERT_SHOCK]].
Proof.
  unfold impact_of. destruct (truthy (accel r)).
  - unfold impact_alerts. eexists _, _. split; [reflexivity|].
    split; match goal with |- In (if ?c then _ else _) _ => destruct c end;
      simpl; tauto.
  - exists [], []. simpl. tauto.
Qed.

End MoreFacts.

Section AlertMembership.
Context {host : JSHost}.

(** Where an alert of the final list comes from. *)
Lemma In_alerts r p a :
  In a (alerts (enrich r p))
  <-> In a (temperature_alerts (temperature r))
      \/ In a (humidity_alerts (humidity r))
      \/ In a (movement_alerts (intensity (enrich r p))
                               (intensityUnit (enrich r p)))
      \/ In a (impact_of r).
Proof.
  rewrite enrich_alerts. rewrite !in_app_iff. tauto.
Qed.

Lemma speed_not_temperature t : ~ In ALERT_SPEED (temperature_alerts t).
Proof.
  intros H. pose proof (temperature_alerts_cases t) as Hc.
  simpl in Hc.
  destruct Hc as [Hc | [Hc | [Hc | [Hc | []]]]]; rewrite <- Hc in H;
    simpl in H; try contradiction; destruct H as [H | []]; discriminate H.
Qed.

Lemma speed_not_humidity h : ~ In ALERT_SPEED (humidity_alerts h).
Proof.
  intros H. pose proof (humidity_alerts_cases h) as Hc.
  simpl in Hc.
  destruct Hc as [Hc | [Hc | [Hc | []]]]; rewrite <- Hc in H;
    simpl in H; try contradiction; destruct H as [H | []]; discriminate H.
Qed.

Lemma speed_not_impact r : ~ In ALERT_SPEED (impact_of r).
Proof.
  intros H. destruct (impact_of_cases r) as (a & b & E & Ha & Hb).
  rewrite E in H. apply in_app_or in H. simpl in Ha, Hb.
  destruct H as [H | H].
  - destruct Ha as [Ha | [Ha | []]]; rewrite <- Ha in H;
      simpl in H; try contradiction; destruct H as [H | []]; discriminate H.
  - destruct Hb as [Hb | [Hb | []]]; rewrite <- Hb in H;
      simpl in H; try contradiction; destruct H as [H | []]; discriminate H.
Qed.

Lemma In_speed_movement i u :
  In ALERT_SPEED (movement_alerts i u)
  <-> exists v, i = Some v /\ u = Some m_s /\ (20 <? v)%float = true.
Proof.
  unfold movement_alerts. split.
  - destruct u as [[|]|]; try (intros []).
    destruct i as [v|]; [|intros []].
    destruct (20 <? v)%float eqn:E; [|intros []].
    intros _. exists v. split; [reflexivity|]. split; [reflexivity | exact E].
  - intros (v & -> & -> & E). rewrite E. left. reflexivity.
Qed.

Lemma In_speed_alerts r p :
  In ALERT_SPEED (alerts (enrich r p))
  <-> exists v, intensity (enrich r p) = Some v
                /\ intensityUnit (enrich r p) = Some m_s
                /\ (20 <? v)%float = true.
Proof.
  rewrite In_alerts, In_speed_movement. split.
  - intros [H | [H | [H | H]]].
    + destruct (speed_not_temperature _ H).
    + destruct (speed_not_humidity _ H).
    + exact H.
    + destruct (speed_not_impact _ H).
  - intros H. right. right. left. exact H.
Qed.

(** The unit of the enriched reading, by branch. *)
Lemma unit_by_branch r p :
  intensityUnit (enrich r p)
  = if gps_usable r p then Some m_s
    else if accel_usable r then Some m_s2 else None.
Proof.
  rewrite enrich_intensityUnit. unfold locals_of.
  destruct (gps_block_cases r p) as [[Hg [i Hb]] | [Hg Hb]];
    rewrite Hb, Hg; destruct (accel_usable r);
    try rewrite orientation_spec; reflexivity.
Qed.

End AlertMembership.

(** ** Reading the latest value *)

(** X1: GET /api/latest answers [200 { ok: true, data: null }] exactly as
    long as no ingest has been answered 200 since the start: ingests
    answered 400 leave the null in place, and after the first successful
    ingest the answer is never null again. *)
Theorem latest_is_null_until_first_ingest (host : JSHost) rqs :
  (fst (get_latest (serve_all rqs initial_state))
   = {| status := 200; json := OkData None |}
   <-> existsb is_accepted_post rqs = false)
  /\ (forall now req_body s,
         is_accepted_post (PostReadings now req_body) = true
         <-> status (fst (post_readings now req_body s)) = 200%Z).
Proof.
  split; [|intros now req_body s; apply accepted_post_answer].
  rewrite get_latest_answer. split.
  - intros H. injection H as H.
    apply latest_after_requests in H. tauto.
  - intros H.
    assert (E : latestReading (serve_all rqs initial_state) = None)
      by (apply latest_after_requests; split; [reflexivity | exact H]).
    rewrite E. reflexivity.
Qed.

(** X2: GET /api/latest requests are transparent: the state after a
    sequence of requests is the state after its ingests alone. *)
Theorem reads_are_transparent (host : JSHost) rqs s :
  serve_all rqs s = serve_all (filter is_post rqs) s.
Proof.
  revert s. induction rqs as [|rq rqs IH]; intros s; [reflexivity|].
  destruct rq as [now req_body|]; simpl.
  - apply IH.
  - rewrite get_latest_state. apply IH.
Qed.

(** X3: the server remembers one sample only: after two consecutive
    successful ingests the state no longer depends on anything served
    before them. *)
Theorem two_ingests_forget_the_past (host : JSHost)
    before before' s s' now1 body1 now2 body2 :
  is_accepted_post (PostReadings now1 body1) = true ->
  is_accepted_post (PostReadings now2 body2) = true ->
  serve_all (before ++ [PostReadings now1 body1; PostReadings now2 body2]) s
  = serve_all
      (before' ++ [PostReadings now1 body1; PostReadings now2 body2]) s'.
Proof.
  intros H1 H2. cbn [is_accepted_post] in H1, H2.
  rewrite !serve_all_app. cbn [serve_all serve].
  rewrite !(post_readings_ok now1 body1 _ H1). cbn [snd].
  rewrite !(post_readings_ok now2 body2 _ H2). reflexivity.
Qed.

(** Two ingests after nothing and after an ingest with a temperature. *)
Lemma two_ingests_forget_the_past_witness :
  exists before before' p1 p2,
    forall host : JSHost,
      serve_all before initial_state <> serve_all before' initial_state
      /\ serve_all (before ++ [p1; p2]) initial_state
         = serve_all (before' ++ [p1; p2]) initial_state.
Proof.
  exists [], [PostReadings 500 (VObj [("temperature", VNum 30)])],
    (PostReadings 1000 (VObj [("lat", VNum 0); ("lon", VNum 0)])),
    (PostReadings 2000 (VObj [("lat", VNum 0); ("lon", VNum 1)])).
  intros host. split.
  - cbn [serve_all serve]. rewrite post_readings_ok by reflexivity.
    discriminate.
  - apply (two_ingests_forget_the_past host); reflexivity.
Defined.

(** ** More on alerts and intensity *)

(** X4: the sample of every successful ingest replaces the GPS reference,
    usable or not: after a successful ingest whose body lacks a numeric
    [lat] or [lon], the next successful ingest, whatever it carries, is
    not given a speed and raises no movement alert. *)
Theorem ingest_without_fix_resets_reference (host : JSHost)
    now1 body1 now2 body2 s :
  is_accepted_post (PostReadings now1 body1) = true ->
  is_accepted_post (PostReadings now2 body2) = true ->
  String.eqb (typeof (prop (js_or body1 (VObj [])) P_lat)) "number" = false
  \/ String.eqb (typeof (prop (js_or body1 (VObj [])) P_lon)) "number" = false ->
  exists e,
    latestReading
      (serve_all [PostReadings now1 body1; PostReadings now2 body2] s)
    = Some e
    /\ raw e = reading_of now2 (js_or body2 (VObj []))
    /\ intensityUnit e <> Some m_s
    /\ ~ In ALERT_SPEED (alerts e).
Proof.
  intros H1 H2 Hno. cbn [is_accepted_post] in H1, H2.
  cbn [serve_all serve].
  rewrite (post_readings_ok now1 body1 _ H1). cbn [snd].
  rewrite (post_readings_ok now2 body2 _ H2).
  cbn [snd previousReading latestReading].
  eexists. split; [reflexivity|].
  set (r1 := reading_of now1 (js_or body1 (VObj []))).
  set (r2 := reading_of now2 (js_or body2 (VObj []))).
  split; [apply enrich_raw|].
  assert (Hg : gps_usable r2 (Some r1) = false).
  { unfold gps_usable.
    destruct (lat r2); [|reflexivity]. destruct (lon r2); [|reflexivity].
    subst r1. cbn [lat lon reading_of].
    destruct Hno as [H | H]; apply as_number_None in H; rewrite H;
      [reflexivity|].
    destruct (as_number (prop (js_or body1 (VObj [])) P_lat)); reflexivity. }
  assert (Hu : intensityUnit (enrich r2 (Some r1)) <> Some m_s).
  { rewrite unit_by_branch, Hg. destruct (accel_usable r2); discriminate. }
  split; [exact Hu|].
  intros H. apply In_speed_alerts in H. destruct H as (v & _ & H & _).
  exact (Hu H).
Qed.

(** A fix, then an empty body, then a fix again: the last sample has no
    speed, since the empty sample took the place of the first fix. *)
Lemma ingest_without_fix_resets_reference_witness :
  exists now1 body1 now2 body2,
    forall host : JSHost,
      let s := snd (post_readings 1000
                      (VObj [("lat", VNum 0); ("lon", VNum 0)])
                      initial_state) in
      exists e,
        latestReading
          (serve_all [PostReadings now1 body1; PostReadings now2 body2] s)
        = Some e
        /\ lat (raw e) = Some 1%float
        /\ intensityUnit e = None.
Proof.
  exists 2000%float, (VObj []), 3000%float,
    (VObj [("lat", VNum 1); ("lon", VNum 1)]).
  intros host s.
  destruct (ingest_without_fix_resets_reference host 2000 (VObj []) 3000
              (VObj [("lat", VNum 1); ("lon", VNum 1)]) s
              eq_refl eq_refl (or_introl eq_refl))
    as (e & He & _ & _ & _).
  exists e. split; [exact He|].
  revert He. cbn [serve_all serve].
  rewrite (post_readings_ok 2000 (VObj []) s eq_refl). cbn [snd].
  rewrite post_readings_ok by reflexivity.
  cbn [snd previousReading latestReading].
  intros [= <-]. rewrite enrich_raw, unit_by_branch. split; reflexivity.
Defined.

(** X5: the alerts of the reading a successful ingest stores are, in this
    order, at most one temperature alert, at most one humidity alert, at
    most one movement alert, at most one tilt alert and at most one shock
    alert; so there are at most five of them and none occurs twice. *)
Theorem alerts_shape (host : JSHost) now req_body s :
  status (fst (post_readings now req_body s)) = 200%Z ->
  exists e t h m a b,
    latestReading (snd (post_readings now req_body s)) = Some e
    /\ alerts e = t ++ h ++ m ++ a ++ b
    /\ In t [[]; [ALERT_TEMP_DANGEROUS]; [ALERT_TEMP_HIGH];
             [ALERT_TEMP_FREEZING]]
    /\ In h [[]; [ALERT_HUMIDITY_HIGH]; [ALERT_HUMIDITY_LOW]]
    /\ In m [[]; [ALERT_SPEED]]
    /\ In a [[]; [ALERT_TILT]]
    /\ In b [[]; [ALERT_SHOCK]]
    /\ (length (alerts e) <= 5)%nat
    /\ NoDup (alerts e).
Proof.
  intros Hok. apply post_answer in Hok.
  rewrite (post_readings_ok _ _ _ Hok). cbn [snd latestReading].
  set (r := reading_of now (js_or req_body (VObj []))).
  set (e := enrich r (previousReading s)).
  destruct (impact_of_cases r) as (a & b & Himp & Ha & Hb).
  pose proof (temperature_alerts_cases (temperature r)) as Ht.
  pose proof (humidity_alerts_cases (humidity r)) as Hh.
  pose proof (movement_alerts_cases (intensity e) (intensityUnit e)) as Hm.
  assert (Hal : alerts e
                = temperature_alerts (temperature r)
                  ++ humidity_alerts (humidity r)
                  ++ movement_alerts (intensity e) (intensityUnit e)
                  ++ a ++ b).
  { subst e. rewrite enrich_alerts, Himp, <- !app_assoc. reflexivity. }
  exists e, (temperature_alerts (temperature r)),
    (humidity_alerts (humidity r)),
    (movement_alerts (intensity e) (intensityUnit e)), a, b.
  split; [reflexivity|]. split; [exact Hal|].
  split; [exact Ht|]. split; [exact Hh|]. split; [exact Hm|].
  split; [exact Ha|]. split; [exact Hb|].
  rewrite Hal.
  generalize dependent (movement_alerts (intensity e) (intensityUnit e)).
  generalize dependent (humidity_alerts (humidity r)).
  generalize dependent (temperature_alerts (temperature r)).
  clear Himp. simpl in Ha, Hb.
  intros t Ht h Hh m Hm _. simpl in Ht, Hh, Hm.
  destruct Ht as [<- | [<- | [<- | [<- | []]]]];
    destruct Hh as [<- | [<- | [<- | []]]];
    destruct Hm as [<- | [<- | []]];
    destruct Ha as [<- | [<- | []]];
    destruct Hb as [<- | [<- | []]];
    (split; [simpl; repeat constructor
            | repeat (constructor;
                      [simpl; intuition discriminate|]); constructor]).
Qed.

(** A hot, humid and shaken device: four alerts, in the fixed order. *)
Lemma alerts_shape_witness :
  exists now req_body s,
    forall host : JSHost,
      status (fst (post_readings now req_body s)) = 200%Z
      /\ exists e,
           latestReading (snd (post_readings now req_body s)) = Some e
           /\ alerts e = [ALERT_TEMP_DANGEROUS; ALERT_HUMIDITY_HIGH;
                          ALERT_TILT; ALERT_SHOCK]
           /\ NoDup (alerts e).
Proof.
  exists 1000%float,
    (VObj [("temperature", VNum 60); ("humidity", VNum 95);
           ("accel", VObj [("x", VNum 20000); ("y", VNum 0); ("z", VNum 0)])]),
    initial_state.
  intros host.
  assert (Hok : status (fst (post_readings 1000
           (VObj [("temperature", VNum 60); ("humidity", VNum 95);
                  ("accel", VObj [("x", VNum 20000); ("y", VNum 0);
                                  ("z", VNum 0)])])
           initial_state)) = 200%Z)
    by (rewrite post_readings_ok by reflexivity; reflexivity).
  split; [exact Hok|].
  destruct (alerts_shape host 1000
              (VObj [("temperature", VNum 60); ("humidity", VNum 95);
                     ("accel", VObj [("x", VNum 20000); ("y", VNum 0);
                                     ("z", VNum 0)])])
              initial_state Hok)
    as (e & t & h & m & a & b & He & _ & _ & _ & _ & _ & _ & _ & Hnd).
  exists e. split; [exact He|]. split; [|exact Hnd].
  revert He. rewrite post_readings_ok by reflexivity.
  cbn [snd latestReading]. intros [= <-].
  rewrite enrich_alerts. reflexivity.
Defined.

(** X6: in the reading a successful ingest stores, the movement alert is
    raised exactly when the intensity is a speed above 20 m/s; it is never
    raised for an acceleration, and it needs a fix in both the current and
    the previous sample. *)
Theorem speed_alert_needs_two_fixes (host : JSHost) now req_body s :
  status (fst (post_readings now req_body s)) = 200%Z ->
  exists e,
    latestReading (snd (post_readings now req_body s)) = Some e
    /\ (In ALERT_SPEED (alerts e)
        <-> exists v, intensity e = Some v
                      /\ intensityUnit e = Some m_s
                      /\ (20 <? v)%float = true)
    /\ (In ALERT_SPEED (alerts e) ->
        gps_usable (raw e) (previousReading s) = true)
    /\ (intensityUnit e = Some m_s2 -> ~ In ALERT_SPEED (alerts e)).
Proof.
  intros Hok. apply post_answer in Hok.
  rewrite (post_readings_ok _ _ _ Hok). cbn [snd latestReading].
  eexists. split; [reflexivity|].
  set (r := reading_of now (js_or req_body (VObj []))).
  split; [apply In_speed_alerts|]. split.
  - intros H. apply In_speed_alerts in H. destruct H as (v & _ & H & _).
    rewrite enrich_raw. rewrite unit_by_branch in H.
    destruct (gps_usable r (previousReading s)); [reflexivity|].
    destruct (accel_usable r); discriminate.
  - intros Hu H. apply In_speed_alerts in H. destruct H as (v & _ & H & _).
    rewrite Hu in H. discriminate.
Qed.

(** One degree of longitude in one second, on the small-angle host: the
    movement alert is raised. *)
Lemma speed_alert_needs_two_fixes_witness :
  exists now req_body,
    let s := snd (@post_readings small_angle_host 1000
                    (VObj [("lat", VNum 0); ("lon", VNum 0)])
                    initial_state) in
    status (fst (@post_readings small_angle_host now req_body s)) = 200%Z
    /\ exists e,
         latestReading (snd (@post_readings small_angle_host now req_body s))
         = Some e
         /\ In ALERT_SPEED (alerts e)
         /\ intensityUnit e = Some m_s.
Proof.
  exists 2000%float, (VObj [("lat", VNum 0); ("lon", VNum 1)]).
  intros s.
  assert (Hok : status (fst (@post_readings small_angle_host 2000
                               (VObj [("lat", VNum 0); ("lon", VNum 1)]) s))
                = 200%Z)
    by (rewrite post_readings_ok by reflexivity; reflexivity).
  split; [exact Hok|].
  destruct (@speed_alert_needs_two_fixes small_angle_host 2000
              (VObj [("lat", VNum 0); ("lon", VNum 1)]) s Hok)
    as (e & He & Hiff & _).
  exists e. split; [exact He|].
  assert (Hal : alerts e = [ALERT_SPEED]).
  { revert He. rewrite post_readings_ok by reflexivity.
    cbn [snd latestReading]. intros [= <-]. vm_compute. reflexivity. }
  assert (Hin : In ALERT_SPEED (alerts e))
    by (rewrite Hal; left; reflexivity).
  split; [exact Hin|].
  apply Hiff in Hin. destruct Hin as (v & _ & Hu & _). exact Hu.
Defined.

(** X8: in a successful ingest, an [accel] that is truthy but has no
    usable [z] (a missing, null or zero count, or a value that is not an
    object at all) raises the tilt alert. *)
Theorem accel_without_z_raises_tilt (host : JSHost) now req_body s :
  status (fst (post_readings now req_body s)) = 200%Z ->
  truthy (prop req_body P_accel) = true ->
  truthy (prop (prop req_body P_accel) P_z) = false ->
  exists e,
    latestReading (snd (post_readings now req_body s)) = Some e
    /\ In ALERT_TILT (alerts e).
Proof.
  intros Hok Ha Hz. apply post_answer in Hok.
  assert (Hb : js_or req_body (VObj []) = req_body).
  { apply (js_or_object _ P_accel). intros E. rewrite E in Ha. discriminate. }
  rewrite (post_readings_ok _ _ _ Hok), Hb. cbn [snd latestReading].
  eexists. split; [reflexivity|].
  set (r := reading_of now req_body).
  assert (Hacc : accel r = prop req_body P_accel)
    by (subst r; cbn [accel reading_of]; unfold js_or; rewrite Ha;
        reflexivity).
  assert (Hz0 : js_or (prop (prop req_body P_accel) P_z) (VNum 0) = VNum 0)
    by (unfold js_or; rewrite Hz; reflexivity).
  rewrite enrich_alerts, in_app_iff. right.
  unfold impact_of. rewrite Hacc, Ha. unfold impact_alerts. rewrite Hz0.
  apply in_or_app. left.
  change (In ALERT_TILT [ALERT_TILT]). left. reflexivity.
Qed.

(** An [accel] that is just [true]. *)
Lemma accel_without_z_raises_tilt_witness :
  exists now req_body s,
    forall host : JSHost,
      exists e,
        latestReading (snd (post_readings now req_body s)) = Some e
        /\ accel (raw e) = VBool true
        /\ alerts e = [ALERT_TILT].
Proof.
  exists 1000%float, (VObj [("accel", VBool true)]), initial_state.
  intros host.
  assert (Hok : status (fst (post_readings 1000
                               (VObj [("accel", VBool true)])
                               initial_state)) = 200%Z)
    by (rewrite post_readings_ok by reflexivity; reflexivity).
  destruct (accel_without_z_raises_tilt host 1000
              (VObj [("accel", VBool true)]) initial_state
              Hok eq_refl eq_refl) as (e & He & _).
  exists e. split; [exact He|].
  revert He. rewrite post_readings_ok by reflexivity.
  cbn [snd latestReading].
  intros [= <-]. rewrite enrich_raw, enrich_alerts. split; reflexivity.
Defined.

(** X9: when [accel] has a numeric [x] but no [y] and no [z], both counts
    are NaN, and the [||] of the pitch denominator replaces the NaN by
    [1e-9] just as it replaces a zero: the pitch is computed from
    [atan2(x / 16384, 1e-9)] instead of being absent. *)
Theorem pitch_floor_replaces_nan (host : JSHost) now req_body s ax :
  prop (prop req_body P_accel) P_x = VNum ax ->
  prop (prop req_body P_accel) P_y = VUndefined ->
  prop (prop req_body P_accel) P_z = VUndefined ->
  exists e,
    latestReading (snd (post_readings now req_body s)) = Some e
    /\ pitch e = angle_out (Math_atan2 (ax / 16384) 1e-9)
    /\ roll e = angle_out (Math_atan2 nan 1e-9).
Proof.
  intros Hx Hy Hz.
  assert (Hok : conversions_return
                  (reading_of now (js_or req_body (VObj []))) = true)
    by (apply (conversions_return_xyz now req_body _ _ _ Hx Hy Hz);
        reflexivity).
  destruct (orientation_angles now req_body s ax Hx Hok)
    as (e & He & Hp & Hr).
  rewrite Hy, Hz in Hp, Hr.
  exists e. split; [exact He|]. split; [exact Hp | exact Hr].
Qed.

(** An [accel] with [x] only. *)
Lemma pitch_floor_replaces_nan_witness :
  exists now req_body s,
    forall host : JSHost,
      exists e,
        latestReading (snd (post_readings now req_body s)) = Some e
        /\ pitch e = angle_out (Math_atan2 (100 / 16384) 1e-9).
Proof.
  exists 1000%float, (VObj [("accel", VObj [("x", VNum 100)])]),
    initial_state.
  intros host.
  destruct (pitch_floor_replaces_nan host 1000
              (VObj [("accel", VObj [("x", VNum 100)])]) initial_state
              100 eq_refl eq_refl eq_refl) as (e & He & Hp & _).
  exists e. split; [exact He | exact Hp].
Defined.

(** ** Facts about binary64 numbers

    Order and sign facts read off the specification of the primitive
    operations. *)

Lemma SFcompare_antisym x y :
  SFcompare y x = option_map CompOpp (SFcompare x y).
Proof.
  destruct x as [sx|sx| |sx mx ex], y as [sy|sy| |sy my ey];
    try destruct sx; try destruct sy; simpl; try reflexivity;
    rewrite (Z.compare_antisym ex ey); destruct (ex ?= ey)%Z; simpl;
    try reflexivity;
    rewrite (Pos.compare_cont_antisym mx my Eq); simpl;
    try rewrite CompOpp_involutive; reflexivity.
Qed.

Lemma SFcompare_refl x c y : SFcompare x y = Some c -> SFcompare x x = Some Eq.
Proof.
  destruct x as [sx|sx| |sx mx ex]; simpl; intros H.
  - reflexivity.
  - destruct sx; reflexivity.
  - discriminate.
  - destruct sx; rewrite Z.compare_refl, Pos.compare_cont_refl; reflexivity.
Qed.

Lemma SFcompare_trans_lt x y z :
  SFcompare x y = Some Lt -> SFcompare y z = Some Lt -> SFcompare x z = Some Lt.
Proof.
  destruct x as [sx|sx| |sx mx ex], y as [sy|sy| |sy my ey],
    z as [sz|sz| |sz mz ez];
    try destruct sx; try destruct sy; try destruct sz; simpl;
    try discriminate; try reflexivity;
    intros H1 H2; injection H1 as H1; injection H2 as H2; f_equal;
    revert H1 H2;
    change (Pos.compare_cont Eq) with Pos.compare;
    destruct (Z.compare_spec ex ey), (Z.compare_spec ey ez),
      (Z.compare_spec ex ez); try discriminate; try lia; try reflexivity;
    destruct (Pos.compare_spec mx my), (Pos.compare_spec my mz),
      (Pos.compare_spec mx mz); simpl; try discriminate; try lia;
    try reflexivity.
Qed.

Lemma is_nan_spec x : is_nan x = true <-> Prim2SF x = S754_nan.
Proof.
  unfold is_nan. rewrite FloatAxioms.eqb_spec. unfold SFeqb. split.
  - destruct (Prim2SF x) as [s|s| |s m e] eqn:E; try reflexivity.
    + discriminate.
    + destruct s; discriminate.
    + rewrite (SFcompare_refl (S754_finite s m e) (if s then Lt else Gt)
                 (S754_zero false)) by (destruct s; reflexivity).
      discriminate.
  - intros ->. reflexivity.
Qed.

Lemma ltb_compare x y :
  (x <? y)%float = true <-> SFcompare (Prim2SF x) (Prim2SF y) = Some Lt.
Proof.
  rewrite FloatAxioms.ltb_spec. unfold SFltb.
  destruct (SFcompare (Prim2SF x) (Prim2SF y)) as [[| |]|];
    split; intros H; try discriminate; reflexivity.
Qed.

Lemma leb_compare x y :
  (x <=? y)%float = true
  <-> SFcompare (Prim2SF x) (Prim2SF y) = Some Lt
      \/ SFcompare (Prim2SF x) (Prim2SF y) = Some Eq.
Proof.
  rewrite FloatAxioms.leb_spec. unfold SFleb.
  destruct (SFcompare (Prim2SF x) (Prim2SF y)) as [[| |]|];
    split; intros H; try discriminate; auto; destruct H; discriminate.
Qed.

Lemma compare_not_nan x y c :
  SFcompare (Prim2SF x) (Prim2SF y) = Some c ->
  is_nan x = false /\ is_nan y = false.
Proof.
  intros H. split; apply not_true_is_false; intros Hn;
    apply is_nan_spec in Hn; rewrite Hn in H.
  - discriminate.
  - destruct (Prim2SF x); discriminate.
Qed.

Lemma ltb_trans x y z :
  (x <? y)%float = true -> (y <? z)%float = true -> (x <? z)%float = true.
Proof.
  rewrite !ltb_compare. apply SFcompare_trans_lt.
Qed.

Lemma leb_ltb_false x y : (x <=? y)%float = true -> (y <? x)%float = false.
Proof.
  intros H. apply leb_compare in H. apply not_true_is_false. intros H'.
  apply ltb_compare in H'. rewrite SFcompare_antisym in H'.
  destruct H as [H | H]; rewrite H in H'; discriminate.
Qed.

Lemma ltb_leb_false x y : (x <? y)%float = true -> (y <=? x)%float = false.
Proof.
  intros H. apply ltb_compare in H. apply not_true_is_false. intros H'.
  apply leb_compare in H'. rewrite SFcompare_antisym, H in H'.
  destruct H'; discriminate.
Qed.

(** Among numbers, [x <= y] is the negation of [y < x]. *)
Lemma not_ltb_leb x y :
  is_nan x = false -> is_nan y = false ->
  (y <? x)%float = false -> (x <=? y)%float = true.
Proof.
  intros Hx Hy H. apply leb_compare.
  destruct (SFcompare (Prim2SF x) (Prim2SF y)) as [[| |]|] eqn:E; auto.
  - assert (H' : (y <? x)%float = true)
      by (apply ltb_compare; rewrite SFcompare_antisym, E; reflexivity).
    congruence.
  - exfalso.
    assert (Prim2SF x <> S754_nan)
      by (intros Hn; apply is_nan_spec in Hn; congruence).
    assert (Prim2SF y <> S754_nan)
      by (intros Hn; apply is_nan_spec in Hn; congruence).
    destruct (Prim2SF x) as [s|s| |s m e], (Prim2SF y) as [s'|s'| |s' m' e'];
      try congruence; discriminate.
Qed.

Lemma Math_max_floor d : (d <=? 1)%float = true -> Math_max 1 d = 1%float.
Proof.
  intros H. unfold Math_max.
  assert (Hn : is_nan d = false).
  { apply leb_compare in H. destruct H as [H | H];
      apply compare_not_nan in H; tauto. }
  rewrite Hn, (leb_ltb_false _ _ H). simpl.
  destruct (d <? 1)%float; reflexivity.
Qed.

Lemma Math_max_above d : (1 <? d)%float = true -> Math_max 1 d = d.
Proof.
  intros H. unfold Math_max.
  assert (Hn : is_nan d = false)
    by (apply ltb_compare in H; apply compare_not_nan in H; tauto).
  rewrite Hn, H. reflexivity.
Qed.

Lemma binary_round_aux_sign m e l :
  sf_nonneg (binary_round_aux prec emax false m e l).
Proof.
  unfold binary_round_aux.
  destruct (shr_fexp prec emax m e l) as [mrs e'].
  destruct (shr_fexp prec emax _ e' loc_Exact) as [mrs' e''].
  destruct (shr_m mrs') as [|p|p]; simpl.
  - reflexivity.
  - match goal with |- context [if ?c then _ else _] => destruct c end;
      reflexivity.
  - exact I.
Qed.

Lemma nonneg_leb x :
  sf_nonneg (Prim2SF x) -> is_nan x = true \/ (0 <=? x)%float = true.
Proof.
  intros H. destruct (Prim2SF x) as [s|s| |s m e] eqn:E; simpl in H.
  - right. rewrite FloatAxioms.leb_spec, E. reflexivity.
  - right. rewrite FloatAxioms.leb_spec, E, H. reflexivity.
  - left. apply is_nan_spec. exact E.
  - right. rewrite FloatAxioms.leb_spec, E, H. reflexivity.
Qed.

Lemma mul_nonneg x c :
  (0 <? x)%float = true -> (0 <? c)%float = true ->
  is_nan (x * c) = true \/ (0 <=? x * c)%float = true.
Proof.
  intros Hx Hc. apply nonneg_leb. rewrite mul_spec.
  apply ltb_compare in Hx. apply ltb_compare in Hc.
  change (Prim2SF 0) with (S754_zero false) in Hx, Hc.
  destruct (Prim2SF x) as [s|s| |s m e], (Prim2SF c) as [s'|s'| |s' m' e'];
    try discriminate; try destruct s; try destruct s';
    try discriminate; simpl; auto.
  apply binary_round_aux_sign.
Qed.

Lemma is_finite_spec x :
  is_finite x = true ->
  exists s, Prim2SF x = S754_zero s \/ exists m e, Prim2SF x = S754_finite s m e.
Proof.
  unfold is_finite. intros H. apply negb_true_iff, orb_false_iff in H.
  destruct H as [Hn Hi].
  unfold is_infinity in Hi. rewrite FloatAxioms.eqb_spec, abs_spec in Hi.
  change (Prim2SF infinity) with (S754_infinity false) in Hi.
  destruct (Prim2SF x) as [s|s| |s m e] eqn:E.
  - exists s. auto.
  - discriminate.
  - apply is_nan_spec in E. congruence.
  - exists s. right. eauto.
Qed.

Lemma sub_self x : is_finite x = true -> (x - x)%float = 0%float.
Proof.
  intros H. apply Prim2SF_inj. rewrite sub_spec.
  change (Prim2SF 0) with (S754_zero false).
  destruct (is_finite_spec x H) as [s [E | (m & e & E)]]; rewrite E.
  - destruct s; reflexivity.
  - unfold SF64sub, SFsub. rewrite Z.sub_diag. reflexivity.
Qed.

Lemma finite_mul_zero x :
  is_finite x = true -> (x * 0)%float = 0%float \/ (x * 0)%float = (-0)%float.
Proof.
  intros H.
  destruct (is_finite_spec x H) as [s [E | (m & e & E)]];
    destruct s; [right | left | right | left];
    apply Prim2SF_inj; rewrite mul_spec, E; reflexivity.
Qed.

Lemma Math_max_zero_cases x :
  Math_max 0 x = nan
  \/ Math_max 0 x = 0%float
  \/ (Math_max 0 x = x /\ (0 <? x)%float = true).
Proof.
  unfold Math_max. change (is_nan 0) with false. cbn [orb].
  destruct (is_nan x); [left; reflexivity|].
  destruct (0 <? x)%float eqn:E; [right; right; split; reflexivity|].
  right. left. destruct (x <? 0)%float; reflexivity.
Qed.

Lemma linear_acceleration_nonneg ax ay az :
  is_nan (linear_acceleration ax ay az) = true
  \/ (0 <=? linear_acceleration ax ay az)%float = true.
Proof.
  unfold linear_acceleration. cbv zeta.
  destruct (Math_max_zero_cases
              (Math_sqrt (ax / 16384 * (ax / 16384)
                          + ay / 16384 * (ay / 16384)
                          + az / 16384 * (az / 16384)) - 1))
    as [E | [E | [E Hpos]]]; rewrite E.
  - left. reflexivity.
  - right. reflexivity.
  - apply mul_nonneg; [exact Hpos | reflexivity].
Qed.

Section MoreParts.
Context {host : JSHost}.

(** The intensity of the GPS branch. *)
Lemma gps_branch_intensity now req_body s p plat plon rlat rlon :
  conversions_return (reading_of now (js_or req_body (VObj []))) = true ->
  previousReading s = Some p ->
  lat p = Some plat -> lon p = Some plon ->
  prop req_body P_lat = VNum rlat ->
  prop req_body P_lon = VNum rlon ->
  exists e,
    latestReading (snd (post_readings now req_body s)) = Some e
    /\ intensity e
       = Some (haversineDistanceMeters plat plon rlat rlon
               / (Math_max 1 (now - timestamp p) / 1000))%float
    /\ intensityUnit e = Some m_s.
Proof.
  intros Hok Hp Hplat Hplon Hlat Hlon.
  rewrite (post_readings_ok _ _ _ Hok).
  rewrite (js_or_object req_body P_lat) by (rewrite Hlat; discriminate).
  cbn [snd latestReading]. eexists. split; [reflexivity|].
  set (r := reading_of now req_body).
  assert (Hb : gps_block r (previousReading s)
               = (Some (haversineDistanceMeters plat plon rlat rlon
                        / (Math_max 1 (now - timestamp p) / 1000))%float,
                  Some m_s)).
  { apply gps_block_fires; try assumption;
      subst r; cbn [lat lon reading_of];
      first [rewrite Hlat | rewrite Hlon]; reflexivity. }
  rewrite enrich_intensity, enrich_intensityUnit, Hb.
  unfold locals_of. destruct (accel_usable r);
    [rewrite orientation_spec|]; split; reflexivity.
Qed.

(** The intensity of the accelerometer branch. *)
Lemma accel_branch_intensity r p :
  intensityUnit (enrich r p) = Some m_s2 ->
  intensity (enrich r p)
  = Some (linear_acceleration (number_of (prop (accel r) P_x))
                              (number_of (prop (accel r) P_y))
                              (number_of (prop (accel r) P_z))).
Proof.
  rewrite enrich_intensity, enrich_intensityUnit. unfold locals_of.
  destruct (gps_block_cases r p) as [[Hg [i Hb]] | [Hg Hb]]; rewrite Hb;
    destruct (accel_usable r); try rewrite orientation_spec;
    cbn [fst snd]; intros H; try discriminate H; reflexivity.
Qed.

Lemma In_category r p a :
  In a (alerts (enrich r p)) ->
  (In a (temperature_alerts (temperature r))
   /\ In a [ALERT_TEMP_DANGEROUS; ALERT_TEMP_HIGH; ALERT_TEMP_FREEZING])
  \/ (In a (humidity_alerts (humidity r))
      /\ In a [ALERT_HUMIDITY_HIGH; ALERT_HUMIDITY_LOW])
  \/ In a [ALERT_SPEED; ALERT_TILT; ALERT_SHOCK].
Proof.
  intros H. apply In_alerts in H. destruct H as [H | [H | [H | H]]].
  - left. split; [exact H|].
    pose proof (temperature_alerts_cases (temperature r)) as Hc.
    simpl in Hc.
    destruct Hc as [Hc | [Hc | [Hc | [Hc | []]]]]; rewrite <- Hc in H;
      simpl in H; simpl; tauto.
  - right. left. split; [exact H|].
    pose proof (humidity_alerts_cases (humidity r)) as Hc.
    simpl in Hc.
    destruct Hc as [Hc | [Hc | [Hc | []]]]; rewrite <- Hc in H;
      simpl in H; simpl; tauto.
  - right. right.
    pose proof (movement_alerts_cases (intensity (enrich r p))
                  (intensityUnit (enrich r p))) as Hc.
    simpl in Hc.
    destruct Hc as [Hc | [Hc | []]]; rewrite <- Hc in H;
      simpl in H; simpl; tauto.
  - right. right.
    destruct (impact_of_cases r) as (a1 & a2 & E & H1 & H2).
    rewrite E in H. apply in_app_or in H. simpl in H1, H2.
    destruct H as [H | H];
      [destruct H1 as [H1 | [H1 | []]]; rewrite <- H1 in H
      |destruct H2 as [H2 | [H2 | []]]; rewrite <- H2 in H];
      simpl in H; simpl; tauto.
Qed.

Lemma In_temperature_only r p a :
  In a [ALERT_TEMP_DANGEROUS; ALERT_TEMP_HIGH; ALERT_TEMP_FREEZING] ->
  (In a (alerts (enrich r p)) <-> In a (temperature_alerts (temperature r))).
Proof.
  intros Ha. split.
  - intros H.
    destruct (In_category r p a H) as [[H1 _] | [[_ H1] | H1]];
      [exact H1 | exfalso | exfalso];
      simpl in Ha, H1;
      repeat match goal with
             | H : _ \/ _ |- _ => destruct H
             | H : False |- _ => destruct H
             end; subst; discriminate.
  - intros H. apply In_alerts. left. exact H.
Qed.

Lemma In_humidity_only r p a :
  In a [ALERT_HUMIDITY_HIGH; ALERT_HUMIDITY_LOW] ->
  (In a (alerts (enrich r p)) <-> In a (humidity_alerts (humidity r))).
Proof.
  intros Ha. split.
  - intros H.
    destruct (In_category r p a H) as [[_ H1] | [[H1 _] | H1]];
      [exfalso | exact H1 | exfalso];
      simpl in Ha, H1;
      repeat match goal with
             | H : _ \/ _ |- _ => destruct H
             | H : False |- _ => destruct H
             end; subst; discriminate.
  - intros H. apply In_alerts. right. left. exact H.
Qed.

End MoreParts.

(** ** Elapsed time, thresholds and signs *)

(** X10: in a successful ingest, the elapsed time of the GPS branch is
    the difference of the two timestamps when that is above 1 ms and 1 ms
    otherwise, also when the two samples carry the same timestamp or the
    clock went backwards; so the speed never divides by zero or by a
    negative time. *)
Theorem elapsed_time_floor (host : JSHost)
    now req_body s p plat plon rlat rlon :
  status (fst (post_readings now req_body s)) = 200%Z ->
  previousReading s = Some p ->
  lat p = Some plat -> lon p = Some plon ->
  prop req_body P_lat = VNum rlat ->
  prop req_body P_lon = VNum rlon ->
  is_nan (now - timestamp p) = false ->
  let dtMs := if (1 <? now - timestamp p)%float
              then (now - timestamp p)%float else 1%float in
  exists e,
    latestReading (snd (post_readings now req_body s)) = Some e
    /\ intensity e
       = Some (haversineDistanceMeters plat plon rlat rlon
               / (dtMs / 1000))%float
    /\ (1 <=? dtMs)%float = true.
Proof.
  intros Hok Hp Hplat Hplon Hlat Hlon Hn dtMs. apply post_answer in Hok.
  destruct (gps_branch_intensity now req_body s p plat plon rlat rlon
              Hok Hp Hplat Hplon Hlat Hlon) as (e & He & Hi & _).
  exists e. split; [exact He|].
  assert (Hmax : Math_max 1 (now - timestamp p) = dtMs).
  { subst dtMs. destruct (1 <? now - timestamp p)%float eqn:E.
    - apply Math_max_above. exact E.
    - apply Math_max_floor. apply not_ltb_leb; [exact Hn | reflexivity | exact E]. }
  rewrite Hmax in Hi. split; [exact Hi|].
  subst dtMs. destruct (1 <? now - timestamp p)%float eqn:E.
  - apply leb_compare. left. apply ltb_compare. exact E.
  - reflexivity.
Qed.

(** Two fixes stamped with the same millisecond: the elapsed time
    is 1 ms. *)
Lemma elapsed_time_floor_witness :
  exists now req_body,
    forall host : JSHost,
      let s := snd (post_readings now
                      (VObj [("lat", VNum 0); ("lon", VNum 0)])
                      initial_state) in
      exists e,
        latestReading (snd (post_readings now req_body s)) = Some e
        /\ intensity e
           = Some (haversineDistanceMeters 0 0 0 0.001 / (1 / 1000))%float.
Proof.
  exists 1000%float, (VObj [("lat", VNum 0); ("lon", VNum 0.001)]).
  intros host s.
  assert (Hprev : previousReading s
                  = Some (reading_of 1000
                            (VObj [("lat", VNum 0); ("lon", VNum 0)])))
    by (subst s; rewrite post_readings_ok by reflexivity; reflexivity).
  assert (Hok : status (fst (post_readings 1000
                   (VObj [("lat", VNum 0); ("lon", VNum 0.001)]) s)) = 200%Z)
    by (rewrite post_readings_ok by reflexivity; reflexivity).
  destruct (elapsed_time_floor host 1000
              (VObj [("lat", VNum 0); ("lon", VNum 0.001)]) s
              (reading_of 1000 (VObj [("lat", VNum 0); ("lon", VNum 0)]))
              0 0 0 0.001 Hok Hprev)
    as (e & He & Hi & _); try reflexivity.
  exists e. split; [exact He | exact Hi].
Defined.

(** Closing the cases of a threshold statement once the comparisons are
    known. *)
Ltac alert_iff :=
  cbv [In ALERT_TEMP_DANGEROUS ALERT_TEMP_HIGH ALERT_TEMP_FREEZING
          ALERT_HUMIDITY_HIGH ALERT_HUMIDITY_LOW];
  intuition (try discriminate; try congruence).

Ltac destruct_ex_none :=
  match goal with
  | H : exists _, None = Some _ /\ _ |- _ =>
      let x := fresh in let E := fresh in
      destruct H as (x & E & _); discriminate E
  end.

(** X11: the temperature alerts of the reading a successful ingest
    stores, by threshold: "extremely high" exactly above 50, "high"
    exactly above 40 up to and including 50, "below freezing" exactly
    below 0; the order of the tests hides none of them. *)
Theorem temperature_alert_thresholds (host : JSHost) now req_body s :
  status (fst (post_readings now req_body s)) = 200%Z ->
  exists e,
    latestReading (snd (post_readings now req_body s)) = Some e
    /\ (In ALERT_TEMP_DANGEROUS (alerts e)
        <-> exists t, temperature (raw e) = Some t
                      /\ (50 <? t)%float = true)
    /\ (In ALERT_TEMP_HIGH (alerts e)
        <-> exists t, temperature (raw e) = Some t
                      /\ (40 <? t)%float = true
                      /\ (t <=? 50)%float = true)
    /\ (In ALERT_TEMP_FREEZING (alerts e)
        <-> exists t, temperature (raw e) = Some t
                      /\ (t <? 0)%float = true).
Proof.
  intros Hok. apply post_answer in Hok.
  rewrite (post_readings_ok _ _ _ Hok). cbn [snd latestReading].
  eexists. split; [reflexivity|].
  set (r := reading_of now (js_or req_body (VObj []))).
  rewrite enrich_raw.
  rewrite !In_temperature_only by (simpl; tauto).
  unfold temperature_alerts.
  destruct (temperature r) as [t|];
    [|simpl; intuition; destruct_ex_none].
  assert (Hinj : forall P : float -> Prop,
             (exists t', Some t = Some t' /\ P t') <-> P t).
  { intros P. split.
    - intros (t' & [= <-] & H). exact H.
    - intros H. exists t. split; [reflexivity | exact H]. }
  rewrite (Hinj (fun t => (50 <? t)%float = true)).
  rewrite (Hinj (fun t => (40 <? t)%float = true /\ (t <=? 50)%float = true)).
  rewrite (Hinj (fun t => (t <? 0)%float = true)).
  destruct (50 <? t)%float eqn:E50.
  - (* above 50 *)
    pose proof (ltb_leb_false _ _ E50) as Hle.
    assert (H0 : (t <? 0)%float = false).
    { apply not_true_is_false. intros H.
      pose proof (ltb_trans _ _ _ E50 H) as Hc. discriminate Hc. }
    rewrite Hle, H0. simpl.
    alert_iff.
  - destruct (40 <? t)%float eqn:E40.
    + (* above 40, not above 50 *)
      assert (Hn : is_nan t = false)
        by (apply ltb_compare in E40; apply compare_not_nan in E40; tauto).
      pose proof (not_ltb_leb t 50 Hn eq_refl E50) as Hle.
      assert (H0 : (t <? 0)%float = false).
      { apply not_true_is_false. intros H.
        pose proof (ltb_trans _ _ _ E40 H) as Hc. discriminate Hc. }
      rewrite Hle, H0. simpl.
    alert_iff.
    + destruct (t <? 0)%float eqn:E0; simpl;
      alert_iff.
Qed.

(** A temperature of 45: the "high" alert and no other. *)
Lemma temperature_alert_thresholds_witness :
  exists now req_body s,
    forall host : JSHost,
      status (fst (post_readings now req_body s)) = 200%Z
      /\ exists e,
           latestReading (snd (post_readings now req_body s)) = Some e
           /\ temperature (raw e) = Some 45%float
           /\ In ALERT_TEMP_HIGH (alerts e)
           /\ ~ In ALERT_TEMP_DANGEROUS (alerts e).
Proof.
  exists 1000%float, (VObj [("temperature", VNum 45)]), initial_state.
  intros host.
  assert (Hok : status (fst (post_readings 1000
                               (VObj [("temperature", VNum 45)])
                               initial_state)) = 200%Z)
    by (rewrite post_readings_ok by reflexivity; reflexivity).
  split; [exact Hok|].
  destruct (temperature_alert_thresholds host 1000
              (VObj [("temperature", VNum 45)]) initial_state Hok)
    as (e & He & Hd & Hh & _).
  exists e. split; [exact He|].
  assert (Ht : temperature (raw e) = Some 45%float).
  { revert He. rewrite post_readings_ok by reflexivity.
    cbn [snd latestReading]. intros [= <-]. rewrite enrich_raw. reflexivity. }
  split; [exact Ht|]. split.
  - apply Hh. exists 45%float. split; [exact Ht|]. split; reflexivity.
  - intros Hin. apply Hd in Hin. destruct Hin as (t & Ht' & Hgt).
    rewrite Ht in Ht'. injection Ht' as <-. discriminate Hgt.
Defined.

(** X12: the humidity alerts of the reading a successful ingest stores,
    by threshold: "critically high" exactly above 90 and "very low"
    exactly below 20. *)
Theorem humidity_alert_thresholds (host : JSHost) now req_body s :
  status (fst (post_readings now req_body s)) = 200%Z ->
  exists e,
    latestReading (snd (post_readings now req_body s)) = Some e
    /\ (In ALERT_HUMIDITY_HIGH (alerts e)
        <-> exists h, humidity (raw e) = Some h
                      /\ (90 <? h)%float = true)
    /\ (In ALERT_HUMIDITY_LOW (alerts e)
        <-> exists h, humidity (raw e) = Some h
                      /\ (h <? 20)%float = true).
Proof.
  intros Hok. apply post_answer in Hok.
  rewrite (post_readings_ok _ _ _ Hok). cbn [snd latestReading].
  eexists. split; [reflexivity|].
  set (r := reading_of now (js_or req_body (VObj []))).
  rewrite enrich_raw.
  rewrite !In_humidity_only by (simpl; tauto).
  unfold humidity_alerts.
  destruct (humidity r) as [h|];
    [|simpl; intuition; destruct_ex_none].
  assert (Hinj : forall P : float -> Prop,
             (exists h', Some h = Some h' /\ P h') <-> P h).
  { intros P. split.
    - intros (h' & [= <-] & H). exact H.
    - intros H. exists h. split; [reflexivity | exact H]. }
  rewrite (Hinj (fun h => (90 <? h)%float = true)).
  rewrite (Hinj (fun h => (h <? 20)%float = true)).
  destruct (90 <? h)%float eqn:E90.
  - assert (H20 : (h <? 20)%float = false).
    { apply not_true_is_false. intros H.
      pose proof (ltb_trans _ _ _ E90 H) as Hc. discriminate Hc. }
    rewrite H20. simpl.
    alert_iff.
  - destruct (h <? 20)%float eqn:E20; simpl;
      alert_iff.
Qed.

(** A humidity of 10: the "very low" alert. *)
Lemma humidity_alert_thresholds_witness :
  exists now req_body s,
    forall host : JSHost,
      status (fst (post_readings now req_body s)) = 200%Z
      /\ exists e,
           latestReading (snd (post_readings now req_body s)) = Some e
           /\ humidity (raw e) = Some 10%float
           /\ In ALERT_HUMIDITY_LOW (alerts e).
Proof.
  exists 1000%float, (VObj [("humidity", VNum 10)]), initial_state.
  intros host.
  assert (Hok : status (fst (post_readings 1000
                               (VObj [("humidity", VNum 10)])
                               initial_state)) = 200%Z)
    by (rewrite post_readings_ok by reflexivity; reflexivity).
  split; [exact Hok|].
  destruct (humidity_alert_thresholds host 1000
              (VObj [("humidity", VNum 10)]) initial_state Hok)
    as (e & He & _ & Hl).
  exists e. split; [exact He|].
  assert (Hh : humidity (raw e) = Some 10%float).
  { revert He. rewrite post_readings_ok by reflexivity.
    cbn [snd latestReading]. intros [= <-]. rewrite enrich_raw. reflexivity. }
  split; [exact Hh|].
  apply Hl. exists 10%float. split; [exact Hh | reflexivity].
Defined.

(** X13: an intensity reported as an acceleration is never negative: in
    every state the server can reach, before or after any ingest, a
    stored reading with unit ['m_s2'] has an intensity that is NaN or at
    least 0. *)
Theorem acceleration_is_never_negative (host : JSHost) now req_body s e v :
  reachable s ->
  latestReading (snd (post_readings now req_body s)) = Some e ->
  intensityUnit e = Some m_s2 ->
  intensity e = Some v ->
  is_nan v = true \/ (0 <=? v)%float = true.
Proof.
  intros Hs He Hu Hv.
  assert (Hs' : reachable (snd (serve (PostReadings now req_body) s)))
    by (apply reach_step; exact Hs).
  destruct (reachable_latest _ Hs' e He) as (_ & s0 & _ & Ee).
  rewrite Ee in Hu, Hv.
  rewrite (accel_branch_intensity _ _ Hu) in Hv. injection Hv as <-.
  apply linear_acceleration_nonneg.
Qed.

(** A device lying still, with less than one g measured: the clamp gives
    an acceleration of 0. *)
Lemma acceleration_is_never_negative_witness :
  exists now req_body s,
    forall host : JSHost,
      reachable s
      /\ exists e,
           latestReading (snd (post_readings now req_body s)) = Some e
           /\ intensityUnit e = Some m_s2
           /\ intensity e = Some 0%float
           /\ (is_nan 0 = true \/ (0 <=? 0)%float = true).
Proof.
  exists 1000%float,
    (VObj [("accel", VObj [("x", VNum 0); ("y", VNum 0); ("z", VNum 16000)])]),
    initial_state.
  intros host. split; [apply reach_init|].
  assert (He : latestReading
                 (snd (post_readings 1000
                         (VObj [("accel", VObj [("x", VNum 0); ("y", VNum 0);
                                                ("z", VNum 16000)])])
                         initial_state))
               = Some (enrich (reading_of 1000
                         (VObj [("accel", VObj [("x", VNum 0); ("y", VNum 0);
                                                ("z", VNum 16000)])])) None))
    by (rewrite post_readings_ok by reflexivity; reflexivity).
  eexists. split; [exact He|].
  assert (Hu : intensityUnit (enrich (reading_of 1000
                         (VObj [("accel", VObj [("x", VNum 0); ("y", VNum 0);
                                                ("z", VNum 16000)])])) None)
               = Some m_s2)
    by (rewrite enrich_intensityUnit; reflexivity).
  assert (Hv : intensity (enrich (reading_of 1000
                         (VObj [("accel", VObj [("x", VNum 0); ("y", VNum 0);
                                                ("z", VNum 16000)])])) None)
               = Some 0%float)
    by (rewrite enrich_intensity; reflexivity).
  split; [exact Hu|]. split; [exact Hv|].
  exact (acceleration_is_never_negative host _ _ _ _ _ reach_init He Hu Hv).
Defined.

(** ** Distance *)

(** X14: the haversine distance from a point with finite coordinates to
    itself is 0, on a host whose sine of 0 is 0, whose [atan2(0, 1)] is 0
    (both as ECMAScript requires) and whose cosine of the latitude has a
    finite square. *)
Theorem haversine_to_itself (host : JSHost) la lo :
  is_finite la = true -> is_finite lo = true ->
  Math_sin 0 = 0%float ->
  Math_atan2 0 1 = 0%float ->
  is_finite (Math_cos (toRadians la) * Math_cos (toRadians la)) = true ->
  haversineDistanceMeters la lo la lo = 0%float.
Proof.
  intros Hla Hlo Hsin Hatan Hcos.
  unfold haversineDistanceMeters. cbv zeta.
  rewrite (sub_self la Hla), (sub_self lo Hlo).
  replace (toRadians 0 / 2)%float with 0%float by reflexivity.
  replace (Math_sin 0) with 0%float by (symmetry; exact Hsin).
  set (c := (Math_cos (toRadians la) * Math_cos (toRadians la))%float) in *.
  assert (Ha : (0 * 0 + c * 0 * 0)%float = 0%float)
    by (destruct (finite_mul_zero c Hcos) as [E | E]; rewrite E; reflexivity).
  rewrite Ha.
  replace (Math_sqrt 0) with 0%float by reflexivity.
  replace (Math_sqrt (1 - 0)) with 1%float by reflexivity.
  replace (Math_atan2 0 1) with 0%float by (symmetry; exact Hatan).
  reflexivity.
Qed.

(** On the small-angle host, at latitude 10 and longitude 20. *)
Lemma haversine_to_itself_witness :
  @haversineDistanceMeters small_angle_host 10 20 10 20 = 0%float
  /\ is_finite 10 = true /\ is_finite 20 = true.
Proof.
  split; [|split; reflexivity].
  apply (@haversine_to_itself small_angle_host 10 20); reflexivity.
Defined.

(** ** What the derived values do not depend on *)

Section Independence.
Context {host : JSHost}.

Lemma gps_block_fix r p :
  gps_block r p
  = match lat r, lon r, fix_of p with
    | Some rlat, Some rlon, Some (plat, plon, pts) =>
        (Some (haversineDistanceMeters plat plon rlat rlon
               / (Math_max 1 (timestamp r - pts) / 1000))%float,
         Some m_s)
    | _, _, _ => (None, None)
    end.
Proof.
  unfold gps_block, fix_of.
  destruct (lat r), (lon r), p as [p|]; try reflexivity.
  destruct (lat p), (lon p); reflexivity.
Qed.

Lemma enrich_same_fix r p p' :
  fix_of p = fix_of p' -> enrich r p = enrich r p'.
Proof.
  intros H. unfold enrich. rewrite !gps_block_fix, H. reflexivity.
Qed.

Lemma enrich_same_inputs r1 r2 p :
  temperature r1 = temperature r2 -> humidity r1 = humidity r2 ->
  accel r1 = accel r2 -> lat r1 = lat r2 -> lon r1 = lon r2 ->
  timestamp r1 = timestamp r2 ->
  intensity (enrich r1 p) = intensity (enrich r2 p)
  /\ intensityUnit (enrich r1 p) = intensityUnit (enrich r2 p)
  /\ pitch (enrich r1 p) = pitch (enrich r2 p)
  /\ roll (enrich r1 p) = roll (enrich r2 p)
  /\ alerts (enrich r1 p) = alerts (enrich r2 p).
Proof.
  intros Ht Hh Ha Hla Hlo Hts.
  assert (Hg : gps_block r1 p = gps_block r2 p)
    by (unfold gps_block; rewrite Hla, Hlo, Hts; reflexivity).
  assert (Hl : forall i u, locals_of r1 i u = locals_of r2 i u)
    by (intros i u; unfold locals_of, accel_usable; rewrite Ha; reflexivity).
  assert (Hi : impact_of r1 = impact_of r2)
    by (unfold impact_of; rewrite Ha; reflexivity).
  assert (H1 : intensity (enrich r1 p) = intensity (enrich r2 p))
    by (rewrite !enrich_intensity, Hg, Hl; reflexivity).
  assert (H2 : intensityUnit (enrich r1 p) = intensityUnit (enrich r2 p))
    by (rewrite !enrich_intensityUnit, Hg, Hl; reflexivity).
  split; [exact H1|]. split; [exact H2|].
  split; [rewrite !enrich_pitch, Hg, Hl; reflexivity|].
  split; [rewrite !enrich_roll, Hg, Hl; reflexivity|].
  rewrite !enrich_alerts, H1, H2, Ht, Hh, Hi. reflexivity.
Qed.

Lemma conversions_return_same_accel r1 r2 :
  accel r1 = accel r2 -> conversions_return r1 = conversions_return r2.
Proof.
  intros H. rewrite !conversions_return_counts, H. reflexivity.
Qed.

End Independence.

(** X15: [gyro] is stored and nothing else: of two bodies that agree on
    every field but [gyro], ingested in the same state at the same time,
    either both ingests fail or both succeed, and then they give the same
    intensity, unit, pitch, roll and alerts. *)
Theorem gyro_is_only_stored (host : JSHost) now body1 body2 s :
  status (fst (post_readings now body1 s)) = 200%Z ->
  (forall k, k <> P_gyro ->
             prop (js_or body1 (VObj [])) k = prop (js_or body2 (VObj [])) k) ->
  exists e1 e2,
    status (fst (post_readings now body2 s)) = 200%Z
    /\ latestReading (snd (post_readings now body1 s)) = Some e1
    /\ latestReading (snd (post_readings now body2 s)) = Some e2
    /\ intensity e1 = intensity e2
    /\ intensityUnit e1 = intensityUnit e2
    /\ pitch e1 = pitch e2
    /\ roll e1 = roll e2
    /\ alerts e1 = alerts e2.
Proof.
  intros Hok H. apply post_answer in Hok.
  assert (Hok2 : conversions_return
                   (reading_of now (js_or body2 (VObj []))) = true).
  { rewrite <- Hok. symmetry. apply conversions_return_same_accel.
    cbn [accel reading_of]. rewrite (H P_accel) by discriminate.
    reflexivity. }
  rewrite (post_readings_ok _ _ _ Hok), (post_readings_ok _ _ _ Hok2).
  cbn [fst snd latestReading status].
  eexists _, _. split; [reflexivity|].
  split; [reflexivity|]. split; [reflexivity|].
  apply enrich_same_inputs; cbn [temperature humidity accel lat lon timestamp
                                   reading_of];
    try rewrite (H P_temperature) by discriminate;
    try rewrite (H P_humidity) by discriminate;
    try rewrite (H P_accel) by discriminate;
    try rewrite (H P_lat) by discriminate;
    try rewrite (H P_lon) by discriminate;
    reflexivity.
Qed.

(** Two bodies with the same accelerometer counts and different [gyro]. *)
Lemma gyro_is_only_stored_witness :
  exists now body1 body2 s,
    forall host : JSHost,
      exists e1 e2,
        latestReading (snd (post_readings now body1 s)) = Some e1
        /\ latestReading (snd (post_readings now body2 s)) = Some e2
        /\ gyro (raw e1) <> gyro (raw e2)
        /\ alerts e1 = alerts e2
        /\ pitch e1 = pitch e2.
Proof.
  exists 1000%float,
    (VObj [("accel", VObj [("x", VNum 0); ("y", VNum 0); ("z", VNum 16384)]);
           ("gyro", VObj [("x", VNum 1); ("y", VNum 2); ("z", VNum 3)])]),
    (VObj [("accel", VObj [("x", VNum 0); ("y", VNum 0); ("z", VNum 16384)]);
           ("gyro", VStr "off")]),
    initial_state.
  intros host.
  destruct (gyro_is_only_stored host 1000
    (VObj [("accel", VObj [("x", VNum 0); ("y", VNum 0); ("z", VNum 16384)]);
           ("gyro", VObj [("x", VNum 1); ("y", VNum 2); ("z", VNum 3)])])
    (VObj [("accel", VObj [("x", VNum 0); ("y", VNum 0); ("z", VNum 16384)]);
           ("gyro", VStr "off")])
    initial_state)
    as (e1 & e2 & _ & He1 & He2 & _ & _ & Hp & _ & Hal).
  { rewrite post_readings_ok by reflexivity. reflexivity. }
  { intros k Hk. destruct k; try reflexivity. congruence. }
  exists e1, e2. split; [exact He1|]. split; [exact He2|].
  split; [|split; [exact Hal | exact Hp]].
  revert He1 He2. rewrite !post_readings_ok by reflexivity.
  cbn [snd latestReading].
  intros [= <-] [= <-]. rewrite !enrich_raw. discriminate.
Defined.

(** X16: the previous sample matters only through its fix: in two states
    whose previous samples have the same position and timestamp, or both
    lack a coordinate or a sample altogether, an ingest that succeeds in
    the one succeeds in the other, with the same answer and the same new
    state. *)
Theorem previous_matters_only_through_its_fix (host : JSHost)
    now req_body s s' :
  status (fst (post_readings now req_body s)) = 200%Z ->
  fix_of (previousReading s) = fix_of (previousReading s') ->
  post_readings now req_body s = post_readings now req_body s'.
Proof.
  intros Hok H. apply post_answer in Hok.
  rewrite !(post_readings_ok _ _ _ Hok).
  rewrite (enrich_same_fix _ _ _ H). reflexivity.
Qed.

(** After a sample with a temperature but no longitude and after no sample
    at all, the same ingest gives the same state. *)
Lemma previous_matters_only_through_its_fix_witness :
  exists now req_body,
    forall host : JSHost,
      let s := snd (post_readings 1000
                      (VObj [("lat", VNum 5); ("temperature", VNum 60)])
                      initial_state) in
      previousReading s <> previousReading initial_state
      /\ post_readings now req_body s
         = post_readings now req_body initial_state.
Proof.
  exists 2000%float, (VObj [("lat", VNum 5); ("lon", VNum 6)]).
  intros host s. split.
  - subst s. rewrite post_readings_ok by reflexivity. discriminate.
  - apply previous_matters_only_through_its_fix.
    + rewrite post_readings_ok by reflexivity. reflexivity.
    + subst s. rewrite post_readings_ok by reflexivity. reflexivity.
Defined.

(** ** The failure of an ingest *)

(** X17: an ingest fails exactly when [accel] is truthy and the conversion
    of one of its [x], [y], [z] throws; it is then answered 400 "Invalid
    payload" and the state is left as it was; every other ingest is
    answered 200.  Among objects, the conversion throws exactly for those
    with an own [toString] key. *)
Theorem ingest_fails_on_unconvertible_counts (host : JSHost)
    now req_body s :
  let accel_ := prop (js_or req_body (VObj [])) P_accel in
  let bad :=
    truthy accel_
    && negb (convertible (prop accel_ P_x)
             && convertible (prop accel_ P_y)
             && convertible (prop accel_ P_z)) in
  (bad = true ->
   post_readings now req_body s
   = ({| status := 400; json := OkFalse "Invalid payload" |}, s))
  /\ (bad = false ->
      fst (post_readings now req_body s)
      = {| status := 200; json := OkTrue |})
  /\ (forall props,
        convertible (VObj props) = negb (has_own "toString" props)).
Proof.
  intros accel_ bad.
  assert (Hc : conversions_return
                 (reading_of now (js_or req_body (VObj []))) = negb bad).
  { subst bad accel_. rewrite conversions_return_counts, truthy_accel.
    destruct (truthy (prop (js_or req_body (VObj [])) P_accel)) eqn:E;
      [|reflexivity].
    rewrite (accel_of_truthy now _ E). cbn [andb].
    rewrite negb_involutive. reflexivity. }
  split; [|split].
  - intros Hb. apply post_readings_failed. rewrite Hc, Hb. reflexivity.
  - intros Hb. rewrite post_readings_ok; [reflexivity|].
    rewrite Hc, Hb. reflexivity.
  - apply convertible_object.
Qed.

(** A [y] that is an array holding an object with an own [toString] key:
    the ingest fails at line 89 and a stored reading stays. *)
Lemma ingest_fails_on_unconvertible_counts_witness :
  exists now req_body,
    forall host : JSHost,
      let s := snd (post_readings 1000 (VObj [("temperature", VNum 20)])
                      initial_state) in
      latestReading s <> None
      /\ post_readings now req_body s
         = ({| status := 400; json := OkFalse "Invalid payload" |}, s).
Proof.
  exists 2000%float,
    (VObj [("accel",
            VObj [("x", VNum 1);
                  ("y", VArr [VNum 2; VObj [("toString", VNum 1)]]);
                  ("z", VNum 0)])]).
  intros host s.
  split; [subst s; rewrite post_readings_ok by reflexivity; discriminate|].
  apply (ingest_fails_on_unconvertible_counts host 2000
           (VObj [("accel",
                   VObj [("x", VNum 1);
                         ("y", VArr [VNum 2; VObj [("toString", VNum 1)]]);
                         ("z", VNum 0)])]) s).
  reflexivity.
Defined.
